(** * Change Order Tracker: the collection store, the status derivation,
      the approver collapse and the filter of [src/index.tsx]

    A shallow embedding of the handlers of the [App], [ChangeOrderTable] and
    [ChangeOrderForm] components.  Component state ([useState]) is an explicit
    record that every handler maps to the next record; [alert] calls are kept
    as a log inside that record.  The second copy of the page,
    [src/unnamed/part_000], has the same [handleSave], [executeDelete] and
    [handleFileImport]; its form differs and is embedded in [Earlier].

    Numbers.  TypeScript's [number] is modelled by [Z]: ids, amounts and
    schedule days are exact integers, [NaN] is the [None] of an [option Z].
    Rounding of IEEE-754 doubles is outside this model. *)

From Stdlib Require Import ZArith List Ascii String Sorted Permutation Lia.
From stdpp Require Import gmap strings list sorting pretty.

Local Open Scope Z_scope.

(** ** Types (index.tsx, lines 14-45) *)

Inductive ApprovalStatus : Set :=
  | AS_Pending
  | AS_Approved
  | AS_Rejected.

Inductive ChangeOrderStatus : Set :=
  | CO_PendingApproval
  | CO_Approved
  | CO_Rejected
  | CO_InProgress
  | CO_Completed.

#[global] Instance ApprovalStatus_eq_dec : EqDecision ApprovalStatus.
Proof. solve_decision. Defined.

#[global] Instance ChangeOrderStatus_eq_dec : EqDecision ChangeOrderStatus.
Proof. solve_decision. Defined.

(** [approvalDate: string | null]: [None] is [null]. *)
Record Approval : Set := mkApproval {
  name : string;
  status : ApprovalStatus;
  approvalDate : option string
}.

Record ChangeOrder : Set := mkChangeOrder {
  id : Z;
  title : string;
  description : string;
  reason : string;
  co_status : ChangeOrderStatus;
  dateRequested : string;
  costImpactEquipment : Z;
  costImpactInstallation : Z;
  costImpactOther : Z;
  otherCostsExplanation : string;
  scheduleImpactDays : Z;
  approvals : list Approval
}.

(** [{ ...co, id: i }] and [{ ...co, status: s }] and
    [{ ...co, approvals: a }]. *)
Definition with_id (i : Z) (co : ChangeOrder) : ChangeOrder :=
  mkChangeOrder i (title co) (description co) (reason co) (co_status co)
    (dateRequested co) (costImpactEquipment co) (costImpactInstallation co)
    (costImpactOther co) (otherCostsExplanation co) (scheduleImpactDays co)
    (approvals co).

Definition with_status (s : ChangeOrderStatus) (co : ChangeOrder) : ChangeOrder :=
  mkChangeOrder (id co) (title co) (description co) (reason co) s
    (dateRequested co) (costImpactEquipment co) (costImpactInstallation co)
    (costImpactOther co) (otherCostsExplanation co) (scheduleImpactDays co)
    (approvals co).

Definition with_approvals (a : list Approval) (co : ChangeOrder) : ChangeOrder :=
  mkChangeOrder (id co) (title co) (description co) (reason co) (co_status co)
    (dateRequested co) (costImpactEquipment co) (costImpactInstallation co)
    (costImpactOther co) (otherCostsExplanation co) (scheduleImpactDays co) a.

(** [type ApproverConfig = { [role: string]: string }] *)
Record AppSettings : Type := mkAppSettings {
  projectName : string;
  projectLocation : string;
  projectManager : string;
  approverConfig : gmap string string
}.

Inductive View : Set := TableView | FormView.

(** The [useState] cells of [App] that the modelled handlers read or write,
    and the messages passed to [alert], oldest first. *)
Record AppState : Type := mkAppState {
  changeOrders : list ChangeOrder;
  currentOrder : option ChangeOrder;
  view : View;
  isDeleteConfirmOpen : bool;
  isRenumberConfirmOpen : bool;
  selectedOrderIds : gset Z;
  settings : AppSettings;
  alerts : list string
}.

(** ** JavaScript built-ins used by the handlers *)

(** [Math.max(0, ...xs)] *)
Definition Math_max0 (xs : list Z) : Z := fold_left Z.max xs 0.

(** [Array.prototype.sort(cmp)].  The sort is stable (ECMAScript 2019), so
    for a comparator that is a consistent ordering its result is determined:
    the stable insertion sort below computes it.  An element [x] is put
    before the first [y] of the already sorted tail with [cmp x y <= 0], so
    that it stays in front of the later elements it ties with. *)
Fixpoint sort_insert {A : Type} (cmp : A -> A -> Z) (x : A) (l : list A) : list A :=
  match l with
  | [] => [x]
  | y :: l' => if cmp x y <=? 0 then x :: y :: l' else y :: sort_insert cmp x l'
  end.

Fixpoint js_sort {A : Type} (cmp : A -> A -> Z) (l : list A) : list A :=
  match l with
  | [] => []
  | x :: l' => sort_insert cmp x (js_sort cmp l')
  end.

(** [arr.map((x, index) => f(x, index))], the index counted from [i]. *)
Fixpoint mapi_from {A B : Type} (f : A -> Z -> B) (i : Z) (l : list A) : list B :=
  match l with
  | [] => []
  | x :: l' => f x i :: mapi_from f (i + 1) l'
  end.

Definition mapi {A B : Type} (f : A -> Z -> B) (l : list A) : list B :=
  mapi_from f 0 l.

(** A string is truthy when it is not empty. *)
Definition truthy (s : string) : bool := negb (bool_decide (s = ""%string)).

(** The built-ins whose result depends on text: they are taken as given,
    with the two facts about them that the handlers rely on.  [None] stands
    for [NaN] (for [JSON_parse] further below, for a thrown [SyntaxError]). *)
Class Builtins : Type := {
  parseFloat : string -> option Z;
  parseInt10 : string -> option Z;
  (** [new Date(s).getTime()] *)
  getTime : string -> option Z;
  trim : string -> string;
  toLowerCase : string -> string;
  (** [s.includes(t)] *)
  includes : string -> string -> bool;
  (** [n.toString()] *)
  toString : Z -> string;
  parseFloat_empty : parseFloat "" = None;
  parseInt10_empty : parseInt10 "" = None
}.

(** ** [handleSave] (index.tsx, lines 380-411) *)

Definition isRejected (approvals : list Approval) : bool :=
  existsb (fun app => bool_decide (status app = AS_Rejected)) approvals.

Definition isFullyApproved (approvals : list Approval) : bool :=
  (0 <? Z.of_nat (length approvals)) &&
  forallb (fun app => bool_decide (status app = AS_Approved)) approvals.

Definition newStatus (orderFromForm : ChangeOrder) : ChangeOrderStatus :=
  let approvals := approvals orderFromForm in
  if isRejected approvals then CO_Rejected
  else if isFullyApproved approvals then
    if bool_decide (co_status orderFromForm <> CO_InProgress) &&
       bool_decide (co_status orderFromForm <> CO_Completed)
    then CO_Approved else co_status orderFromForm
  else
    if bool_decide (co_status orderFromForm <> CO_InProgress) &&
       bool_decide (co_status orderFromForm <> CO_Completed)
    then CO_PendingApproval else co_status orderFromForm.

Definition orderToSave (orderFromForm : ChangeOrder) : ChangeOrder :=
  with_status (newStatus orderFromForm) orderFromForm.

Definition newCoId (changeOrders : list ChangeOrder) : Z :=
  Math_max0 (map id changeOrders) + 1.

(** The collection handed to [setChangeOrders]. *)
Definition savedOrders (changeOrders : list ChangeOrder) (orderFromForm : ChangeOrder)
  : list ChangeOrder :=
  let orderToSave := orderToSave orderFromForm in
  if bool_decide (id orderToSave = 0) then
    let newOrder := with_id (newCoId changeOrders) orderToSave in
    js_sort (fun a b => id b - id a) (changeOrders ++ [newOrder])
  else
    map (fun co => if bool_decide (id co = id orderToSave) then orderToSave else co)
      changeOrders.

Definition handleSave (st : AppState) (orderFromForm : ChangeOrder) : AppState :=
  mkAppState (savedOrders (changeOrders st) orderFromForm) None TableView
    (isDeleteConfirmOpen st) (isRenumberConfirmOpen st) ∅ (settings st) (alerts st).

(** ** [executeDelete] (lines 421-425) *)

Definition executeDelete (st : AppState) : AppState :=
  mkAppState
    (List.filter (fun co => negb (bool_decide (id co ∈ selectedOrderIds st)))
       (changeOrders st))
    (currentOrder st) (view st) false (isRenumberConfirmOpen st) ∅
    (settings st) (alerts st).

(** ** [handleRenumber] (lines 427-447) *)

(** The comparator [new Date(a.dateRequested).getTime() -
    new Date(b.dateRequested).getTime()]; a [NaN] result counts as [+0] for
    [sort]. *)
Definition dateCmp `{Builtins} (a b : ChangeOrder) : Z :=
  match getTime (dateRequested a), getTime (dateRequested b) with
  | Some ta, Some tb => ta - tb
  | _, _ => 0
  end.

Definition sortedOrders `{Builtins} (changeOrders : list ChangeOrder) : list ChangeOrder :=
  js_sort dateCmp changeOrders.

(** [(order, index) => ({ ...order, id: index + 1 })] *)
Definition renumberEntry (order : ChangeOrder) (index : Z) : ChangeOrder :=
  with_id (index + 1) order.

Definition renumberedOrders `{Builtins} (changeOrders : list ChangeOrder)
  : list ChangeOrder :=
  mapi renumberEntry (sortedOrders changeOrders).

Definition handleRenumber `{Builtins} (st : AppState) : AppState :=
  if bool_decide (length (changeOrders st) = 0%nat) then
    mkAppState (changeOrders st) (currentOrder st) (view st)
      (isDeleteConfirmOpen st) false (selectedOrderIds st) (settings st)
      (alerts st ++ ["No change orders to renumber."%string])
  else
    let renumbered := renumberedOrders (changeOrders st) in
    mkAppState renumbered (currentOrder st) (view st)
      (isDeleteConfirmOpen st) false ∅ (settings st)
      (alerts st ++
         [("Successfully renumbered " +:+
           toString (Z.of_nat (length renumbered)) +:+ " change orders.")%string]).

(** ** [handleFileImport] (lines 483-528) *)

(** The values [JSON.parse] returns. *)
#[local] Set Warnings "-register-all".
Inductive JSON : Type :=
  | JNull
  | JBool (b : bool)
  | JNum (n : Z)
  | JStr (s : string)
  | JArr (items : list JSON)
  | JObj (fields : gmap string JSON).
#[local] Set Warnings "register-all".

(** [data[key]] for a [data] other than [null]: [None] is [undefined].  Only
    objects carry the two keys that are read. *)
Definition getProp (data : JSON) (key : string) : option JSON :=
  match data with
  | JObj fields => fields !! key
  | _ => None
  end.

(** Truthiness of a property value. *)
Definition truthyJ (v : option JSON) : bool :=
  match v with
  | None => false
  | Some JNull => false
  | Some (JBool b) => b
  | Some (JNum n) => negb (n =? 0)
  | Some (JStr s) => truthy s
  | Some (JArr _) => true
  | Some (JObj _) => true
  end.

(** [Array.isArray(v)] *)
Definition isArray (v : option JSON) : bool :=
  match v with
  | Some (JArr _) => true
  | _ => false
  end.

(** What the page is given to work with when a project file is read:
    [JSON.parse] ([None] when it throws) and the reading of a parsed value at
    the declared types [AppSettings] and [ChangeOrder].  The source stores
    [data.settings] and [data.changeOrders] as they are, without a check
    (they are typed [any]). *)
Class ProjectFile : Type := {
  JSON_parse : string -> option JSON;
  asSettings : JSON -> AppSettings;
  asChangeOrder : JSON -> ChangeOrder
}.

(** The [try] block of [reader.onload]: [None] when an exception reaches
    the [catch], otherwise the two values handed to the setters.
    [data.settings] on [null] throws a [TypeError]. *)
Definition tryImport `{ProjectFile} (fileContent : string)
  : option (AppSettings * list ChangeOrder) :=
  match JSON_parse fileContent with
  | None => None
  | Some JNull => None
  | Some data =>
      if negb (truthyJ (getProp data "settings")) ||
         negb (isArray (getProp data "changeOrders"))
      then None
      else
        match getProp data "settings", getProp data "changeOrders" with
        | Some s, Some (JArr items) => Some (asSettings s, map asChangeOrder items)
        | _, _ => None
        end
  end.

(** What reaches [handleFileImport]: no file chosen, a failed read
    ([reader.onerror]) or the text of the file ([reader.onload]). *)
Inductive FileEvent : Set :=
  | NoFile
  | ReadFailed
  | Loaded (fileContent : string).

Definition handleFileImport `{ProjectFile} (st : AppState) (ev : FileEvent) : AppState :=
  match ev with
  | NoFile => st
  | ReadFailed =>
      mkAppState (changeOrders st) (currentOrder st) (view st)
        (isDeleteConfirmOpen st) (isRenumberConfirmOpen st) (selectedOrderIds st)
        (settings st)
        (alerts st ++ ["An error occurred while reading the file."%string])
  | Loaded fileContent =>
      match tryImport fileContent with
      | Some (newSettings, newOrders) =>
          mkAppState newOrders None TableView
            (isDeleteConfirmOpen st) (isRenumberConfirmOpen st) ∅ newSettings
            (alerts st ++ ["Project imported successfully!"%string])
      | None =>
          mkAppState (changeOrders st) (currentOrder st) (view st)
            (isDeleteConfirmOpen st) (isRenumberConfirmOpen st)
            (selectedOrderIds st) (settings st)
            (alerts st ++
               ["Error: The selected file is not a valid project file."%string])
      end
  end.

(** ** The filter of [ChangeOrderTable] (lines 716-766, 815-819) *)

Record Filters : Set := mkFilters {
  filter_id : string;
  filter_title : string;
  filter_status : string;
  filter_dateRequested : string;
  filter_costMin : string;
  filter_costMax : string;
  filter_scheduleMin : string;
  filter_scheduleMax : string
}.

(** The initial value of the [filters] cell, also what [clearFilters] sets. *)
Definition defaultFilters : Filters :=
  mkFilters "" "" "All" "" "" "" "" "".

(** The string each member of the [ChangeOrderStatus] union is. *)
Definition statusText (s : ChangeOrderStatus) : string :=
  match s with
  | CO_PendingApproval => "Pending Approval"
  | CO_Approved => "Approved"
  | CO_Rejected => "Rejected"
  | CO_InProgress => "In Progress"
  | CO_Completed => "Completed"
  end.

Definition totalCost (co : ChangeOrder) : Z :=
  costImpactEquipment co + costImpactInstallation co + costImpactOther co.

(** [new Date(a) >= new Date(b)]: a comparison with [NaN] is false. *)
Definition dateGe `{Builtins} (a b : string) : bool :=
  match getTime a, getTime b with
  | Some ta, Some tb => tb <=? ta
  | _, _ => false
  end.

(** [!isNaN(bound) ? test(bound) : true] *)
Definition boundMatch (bound : option Z) (test : Z -> bool) : bool :=
  match bound with
  | Some b => test b
  | None => true
  end.

(** The callback given to [changeOrders.filter]. *)
Definition filterMatch `{Builtins} (filters : Filters) (co : ChangeOrder) : bool :=
  let totalCost := totalCost co in
  let idMatch :=
    if truthy (filter_id filters)
    then includes (toString (id co)) (filter_id filters) else true in
  let titleMatch :=
    if truthy (filter_title filters)
    then includes (toLowerCase (title co)) (toLowerCase (filter_title filters))
    else true in
  let statusMatch :=
    if negb (bool_decide (filter_status filters = "All"%string))
    then bool_decide (statusText (co_status co) = filter_status filters)
    else true in
  let dateMatch :=
    if truthy (filter_dateRequested filters)
    then dateGe (dateRequested co) (filter_dateRequested filters) else true in
  let costMin := parseFloat (filter_costMin filters) in
  let costMax := parseFloat (filter_costMax filters) in
  let costMinMatch := boundMatch costMin (fun b => b <=? totalCost) in
  let costMaxMatch := boundMatch costMax (fun b => totalCost <=? b) in
  let scheduleMin := parseInt10 (filter_scheduleMin filters) in
  let scheduleMax := parseInt10 (filter_scheduleMax filters) in
  let scheduleMinMatch := boundMatch scheduleMin (fun b => b <=? scheduleImpactDays co) in
  let scheduleMaxMatch := boundMatch scheduleMax (fun b => scheduleImpactDays co <=? b) in
  idMatch && titleMatch && statusMatch && dateMatch && costMinMatch &&
  costMaxMatch && scheduleMinMatch && scheduleMaxMatch.

Definition filteredChangeOrders `{Builtins} (changeOrders : list ChangeOrder)
    (filters : Filters) : list ChangeOrder :=
  List.filter (filterMatch filters) changeOrders.

(** [orders.reduce((total, order) => total + order.costImpactEquipment +
    order.costImpactInstallation + order.costImpactOther, 0)] *)
Definition reduceCost (orders : list ChangeOrder) : Z :=
  fold_left
    (fun total order =>
       total + costImpactEquipment order + costImpactInstallation order +
       costImpactOther order)
    orders 0.

(** The total shown in the table footer. *)
Definition totalCostImpact `{Builtins} (changeOrders : list ChangeOrder)
    (filters : Filters) : Z :=
  reduceCost (filteredChangeOrders changeOrders filters).

(** ** [ChangeOrderForm] (lines 961-1121) *)

Definition APPROVER_ROLES : list string :=
  [ "Manager of Gas Engineering"%string;
    "Director of Gas Engineering"%string;
    "Director of Gas Operations"%string;
    "Sr. Vice President of Gas Operations"%string ].

Record InternalApproverControl : Set := mkControl {
  role : string;
  included : bool;
  ctl_status : ApprovalStatus;
  ctl_approvalDate : string
}.

(** The [useState] cells of the form. *)
Record FormState : Type := mkFormState {
  formData : ChangeOrder;
  internalApprovers : list InternalApproverControl;
  thirdPartyApprovers : list Approval;
  errors : gmap string string
}.

(** [emptyFormState]; [today] is [new Date().toISOString().split('T')[0]]. *)
Definition emptyFormState (today : string) : ChangeOrder :=
  mkChangeOrder 0 "" "" "" CO_PendingApproval today 0 0 0 "" 0 [].

(** [approverConfig[role]], typed [string] by the index signature.  A role
    without an entry ([undefined]) reads as the empty string here: both are
    falsy, and the form only builds rows for roles with a non-blank entry. *)
Definition configuredName (approverConfig : gmap string string) (role : string) : string :=
  default ""%string (approverConfig !! role).

(** [value || null] on an approval date. *)
Definition orNull (d : option string) : option string :=
  match d with
  | Some s => if truthy s then Some s else None
  | None => None
  end.

(** [value || ''] on an approval date. *)
Definition orEmpty (d : option string) : string :=
  match d with
  | Some s => s
  | None => ""
  end.

Definition configuredInternalApprovers `{Builtins} (approverConfig : gmap string string)
  : list string :=
  List.filter
    (fun role =>
       match approverConfig !! role with
       | Some n => truthy (trim n)
       | None => false
       end)
    APPROVER_ROLES.

(** The [useEffect] that loads the form from [order] (lines 985-1005). *)
Definition loadForm `{Builtins} (today : string) (order : option ChangeOrder)
    (approverConfig : gmap string string) : FormState :=
  let existingApprovals :=
    match order with Some o => approvals o | None => [] end in
  let newInternalState :=
    map (fun role =>
           let approverName := configuredName approverConfig role in
           let existing :=
             List.find (fun app => bool_decide (name app = approverName))
               existingApprovals in
           match existing with
           | Some app => mkControl role true (status app) (orEmpty (approvalDate app))
           | None => mkControl role false AS_Pending ""
           end)
        (configuredInternalApprovers approverConfig) in
  let newThirdPartyState :=
    List.filter
      (fun app => negb (bool_decide (name app ∈ (map_to_list approverConfig).*2)))
      existingApprovals in
  mkFormState
    (match order with Some o => o | None => emptyFormState today end)
    newInternalState
    (map (fun a => mkApproval (name a) (status a) (Some (orEmpty (approvalDate a))))
       newThirdPartyState)
    ∅.

(** The three [field, value] pairs the internal rows send. *)
Inductive ControlEdit : Set :=
  | SetIncluded (value : bool)
  | SetStatus (value : ApprovalStatus)
  | SetApprovalDate (value : string).

(** The body of [handleInternalApproverChange] on the row it picks. *)
Definition editControl (e : ControlEdit) (c : InternalApproverControl)
  : InternalApproverControl :=
  match e with
  | SetApprovalDate value =>
      if truthy value && bool_decide (ctl_status c = AS_Pending)
      then mkControl (role c) (included c) AS_Approved value
      else mkControl (role c) (included c) (ctl_status c) value
  | SetStatus value =>
      if bool_decide (value = AS_Pending)
      then mkControl (role c) (included c) value ""
      else mkControl (role c) (included c) value (ctl_approvalDate c)
  | SetIncluded value =>
      if negb value
      then mkControl (role c) value AS_Pending ""
      else mkControl (role c) value (ctl_status c) (ctl_approvalDate c)
  end.

(** [handleInternalApproverChange(index, field, value)]; the rows are
    rendered from the list, so [index] is always one of its positions (past
    the end the list is left as it is here). *)
Definition handleInternalApproverChange (fs : FormState) (index : nat) (e : ControlEdit)
  : FormState :=
  mkFormState (formData fs) (alter (editControl e) index (internalApprovers fs))
    (thirdPartyApprovers fs) (errors fs).

(** The [target] of an input event. *)
Record InputTarget : Set := mkTarget {
  target_name : string;
  target_value : string;
  target_type : string
}.

Definition statusOfText (s : string) : option ChangeOrderStatus :=
  if bool_decide (s = "Pending Approval"%string) then Some CO_PendingApproval
  else if bool_decide (s = "Approved"%string) then Some CO_Approved
  else if bool_decide (s = "Rejected"%string) then Some CO_Rejected
  else if bool_decide (s = "In Progress"%string) then Some CO_InProgress
  else if bool_decide (s = "Completed"%string) then Some CO_Completed
  else None.

(** [{ ...prev, [name]: processedValue }] for the four [type="number"]
    inputs of the form; another name leaves the typed fields as they are. *)
Definition setNumber (field : string) (v : Z) (co : ChangeOrder) : ChangeOrder :=
  if bool_decide (field = "costImpactEquipment"%string) then
    mkChangeOrder (id co) (title co) (description co) (reason co) (co_status co)
      (dateRequested co) v (costImpactInstallation co) (costImpactOther co)
      (otherCostsExplanation co) (scheduleImpactDays co) (approvals co)
  else if bool_decide (field = "costImpactInstallation"%string) then
    mkChangeOrder (id co) (title co) (description co) (reason co) (co_status co)
      (dateRequested co) (costImpactEquipment co) v (costImpactOther co)
      (otherCostsExplanation co) (scheduleImpactDays co) (approvals co)
  else if bool_decide (field = "costImpactOther"%string) then
    mkChangeOrder (id co) (title co) (description co) (reason co) (co_status co)
      (dateRequested co) (costImpactEquipment co) (costImpactInstallation co) v
      (otherCostsExplanation co) (scheduleImpactDays co) (approvals co)
  else if bool_decide (field = "scheduleImpactDays"%string) then
    mkChangeOrder (id co) (title co) (description co) (reason co) (co_status co)
      (dateRequested co) (costImpactEquipment co) (costImpactInstallation co)
      (costImpactOther co) (otherCostsExplanation co) v (approvals co)
  else co.

(** The same for the text inputs, the date input and the status select. *)
Definition setText (field : string) (v : string) (co : ChangeOrder) : ChangeOrder :=
  if bool_decide (field = "title"%string) then
    mkChangeOrder (id co) v (description co) (reason co) (co_status co)
      (dateRequested co) (costImpactEquipment co) (costImpactInstallation co)
      (costImpactOther co) (otherCostsExplanation co) (scheduleImpactDays co)
      (approvals co)
  else if bool_decide (field = "description"%string) then
    mkChangeOrder (id co) (title co) v (reason co) (co_status co)
      (dateRequested co) (costImpactEquipment co) (costImpactInstallation co)
      (costImpactOther co) (otherCostsExplanation co) (scheduleImpactDays co)
      (approvals co)
  else if bool_decide (field = "reason"%string) then
    mkChangeOrder (id co) (title co) (description co) v (co_status co)
      (dateRequested co) (costImpactEquipment co) (costImpactInstallation co)
      (costImpactOther co) (otherCostsExplanation co) (scheduleImpactDays co)
      (approvals co)
  else if bool_decide (field = "dateRequested"%string) then
    mkChangeOrder (id co) (title co) (description co) (reason co) (co_status co)
      v (costImpactEquipment co) (costImpactInstallation co)
      (costImpactOther co) (otherCostsExplanation co) (scheduleImpactDays co)
      (approvals co)
  else if bool_decide (field = "otherCostsExplanation"%string) then
    mkChangeOrder (id co) (title co) (description co) (reason co) (co_status co)
      (dateRequested co) (costImpactEquipment co) (costImpactInstallation co)
      (costImpactOther co) v (scheduleImpactDays co) (approvals co)
  else if bool_decide (field = "status"%string) then
    match statusOfText v with
    | Some s => with_status s co
    | None => co
    end
  else co.

(** [handleChange] (lines 1010-1030). *)
Definition handleChange `{Builtins} (fs : FormState) (target : InputTarget) : FormState :=
  let isNumeric := bool_decide (target_type target = "number"%string) in
  let newData :=
    if isNumeric
    then setNumber (target_name target)
           (match parseFloat (target_value target) with
            | Some v => v
            | None => 0
            end)
           (formData fs)
    else setText (target_name target) (target_value target) (formData fs) in
  let newErrors :=
    if isNumeric then
      match parseFloat (target_value target) with
      | Some v =>
          if v <? 0
          then <[target_name target := "Must be a non-negative number."%string]> (errors fs)
          else delete (target_name target) (errors fs)
      | None => delete (target_name target) (errors fs)
      end
    else errors fs in
  mkFormState newData (internalApprovers fs) (thirdPartyApprovers fs) newErrors.

(** [!s.trim()] *)
Definition isBlank `{Builtins} (s : string) : bool := negb (truthy (trim s)).

(** The error object [handleSubmit] hands to [setErrors] (lines 1083-1096). *)
Definition submitErrors `{Builtins} (fs : FormState) : gmap string string :=
  let e0 :=
    delete "reason"%string
      (delete "description"%string (delete "title"%string (errors fs))) in
  let e1 :=
    if isBlank (title (formData fs))
    then <["title"%string := "Title is required."%string]> e0 else e0 in
  let e2 :=
    if isBlank (description (formData fs))
    then <["description"%string := "Description is required."%string]> e1 else e1 in
  if isBlank (reason (formData fs))
  then <["reason"%string := "Reason for change is required."%string]> e2 else e2.

(** The two [forEach] loops that fill [finalApprovals] (lines 1105-1118);
    [acc ++ [x]] is [push]. *)
Definition finalApprovals (approverConfig : gmap string string) (fs : FormState)
  : list Approval :=
  let afterInternal :=
    fold_left
      (fun acc app =>
         if included app
         then acc ++ [mkApproval (configuredName approverConfig (role app))
                        (ctl_status app)
                        (orNull (Some (ctl_approvalDate app)))]
         else acc)
      (internalApprovers fs) [] in
  fold_left
    (fun acc app =>
       if truthy (name app)
       then acc ++ [mkApproval (name app) (status app) (orNull (approvalDate app))]
       else acc)
    (thirdPartyApprovers fs) afterInternal.

(** How [handleSubmit] ends: with the [alert] and an early [return], or with
    the call of [onSave]. *)
Inductive SubmitOutcome : Set :=
  | Blocked (message : string)
  | OnSave (order : ChangeOrder).

(** [handleSubmit] (lines 1079-1121): the next form state and the outcome. *)
Definition handleSubmit `{Builtins} (approverConfig : gmap string string) (fs : FormState)
  : FormState * SubmitOutcome :=
  let fs' :=
    mkFormState (formData fs) (internalApprovers fs) (thirdPartyApprovers fs)
      (submitErrors fs) in
  if isBlank (title (formData fs)) || isBlank (description (formData fs)) ||
     isBlank (reason (formData fs))
  then
    (fs', Blocked
       "Please fill out Title, Description, and Reason for Change before saving.")
  else
    (fs', OnSave (with_approvals (finalApprovals approverConfig fs) (formData fs))).

(** The form inside [App]: [onSave] is [handleSave], [approverConfig] comes
    from the settings. *)
Definition submitForm `{Builtins} (st : AppState) (fs : FormState) : AppState * FormState :=
  match handleSubmit (approverConfig (settings st)) fs with
  | (fs', Blocked message) =>
      (mkAppState (changeOrders st) (currentOrder st) (view st)
         (isDeleteConfirmOpen st) (isRenumberConfirmOpen st) (selectedOrderIds st)
         (settings st) (alerts st ++ [message]),
       fs')
  | (fs', OnSave order) => (handleSave st order, fs')
  end.

(** ** The earlier copy of the form (src/unnamed/part_000, lines 736-838)

    Its [handleChange] also flags an empty number input, and its
    [handleSubmit] returns early as soon as any error is recorded. *)
Module Earlier.

Definition handleChange `{Builtins} (fs : FormState) (target : InputTarget) : FormState :=
  let isNumeric := bool_decide (target_type target = "number"%string) in
  let newData :=
    if isNumeric
    then setNumber (target_name target)
           (match parseFloat (target_value target) with
            | Some v => v
            | None => 0
            end)
           (formData fs)
    else setText (target_name target) (target_value target) (formData fs) in
  let negative :=
    match parseFloat (target_value target) with
    | Some v => v <? 0
    | None => false
    end in
  let newErrors :=
    if isNumeric then
      if bool_decide (target_value target = ""%string) || negative
      then <[target_name target := "Must be a non-negative number."%string]> (errors fs)
      else delete (target_name target) (errors fs)
    else errors fs in
  mkFormState newData (internalApprovers fs) (thirdPartyApprovers fs) newErrors.

Definition currentErrors `{Builtins} (fs : FormState) : gmap string string :=
  let e0 := errors fs in
  let e1 :=
    if isBlank (title (formData fs))
    then <["title"%string := "Title is required."%string]> e0 else e0 in
  let e2 :=
    if isBlank (description (formData fs))
    then <["description"%string := "Description is required."%string]> e1 else e1 in
  if isBlank (reason (formData fs))
  then <["reason"%string := "Reason for change is required."%string]> e2 else e2.

Definition handleSubmit `{Builtins} (approverConfig : gmap string string) (fs : FormState)
  : FormState * SubmitOutcome :=
  if negb (bool_decide (size (currentErrors fs) = 0%nat))
  then
    (mkFormState (formData fs) (internalApprovers fs) (thirdPartyApprovers fs)
       (currentErrors fs),
     Blocked "Please fix the errors before saving.")
  else
    (fs, OnSave (with_approvals (finalApprovals approverConfig fs) (formData fs))).

End Earlier.

(** ** The commands that change the collection *)

Inductive Command : Set :=
  | Save (orderFromForm : ChangeOrder)
  | ConfirmDelete
  | Renumber
  | Import (ev : FileEvent).

Definition run `{Builtins} `{ProjectFile} (st : AppState) (c : Command) : AppState :=
  match c with
  | Save orderFromForm => handleSave st orderFromForm
  | ConfirmDelete => executeDelete st
  | Renumber => handleRenumber st
  | Import ev => handleFileImport st ev
  end.

(** The command reaches its [setChangeOrders] call: a renumbering of an
    empty collection returns before it, and so does an import without a
    file, with a failed read or with a rejected content. *)
Definition completes `{ProjectFile} (st : AppState) (c : Command) : bool :=
  match c with
  | Save _ => true
  | ConfirmDelete => true
  | Renumber => negb (bool_decide (length (changeOrders st) = 0%nat))
  | Import (Loaded fileContent) =>
      match tryImport fileContent with Some _ => true | None => false end
  | Import _ => false
  end.

(** ** An instance of the built-ins on plain text, to run the handlers

    Decimal integer literals, dates [yyyy-mm-dd] read as the number
    [yyyymmdd] (which orders them as their time stamps do), blanks and
    letters of ASCII. *)

Definition digitOf (c : ascii) : option Z :=
  let n := Z.of_N (N_of_ascii c) in
  if (48 <=? n) && (n <=? 57) then Some (n - 48) else None.

Fixpoint readDigits (s : string) (acc : option Z) : option Z :=
  match s with
  | EmptyString => acc
  | String c s' =>
      match digitOf c with
      | Some d => readDigits s' (Some (10 * default 0 acc + d))
      | None => acc
      end
  end.

Definition readNumber (s : string) : option Z :=
  match s with
  | String "-"%char s' => Z.opp <$> readDigits s' None
  | _ => readDigits s None
  end.

Fixpoint readDate (s : string) (acc : option Z) : option Z :=
  match s with
  | EmptyString => acc
  | String c s' =>
      if bool_decide (c = "-"%char) then readDate s' acc
      else
        match digitOf c with
        | Some d => readDate s' (Some (10 * default 0 acc + d))
        | None => None
        end
  end.

Fixpoint dropSpaces (s : string) : string :=
  match s with
  | String " "%char s' => dropSpaces s'
  | _ => s
  end.

Definition plainTrim (s : string) : string :=
  String.rev (dropSpaces (String.rev (dropSpaces s))).

Definition lowerChar (c : ascii) : ascii :=
  let n := N_of_ascii c in
  if ((65 <=? n) && (n <=? 90))%N then ascii_of_N (n + 32) else c.

Fixpoint plainLower (s : string) : string :=
  match s with
  | EmptyString => EmptyString
  | String c s' => String (lowerChar c) (plainLower s')
  end.

Fixpoint plainIncludes (s t : string) : bool :=
  String.prefix t s ||
  match s with
  | EmptyString => false
  | String _ s' => plainIncludes s' t
  end.

Definition plainBuiltins : Builtins :=
  {| parseFloat := readNumber;
     parseInt10 := readNumber;
     getTime := fun s => readDate s None;
     trim := plainTrim;
     toLowerCase := plainLower;
     includes := plainIncludes;
     toString := pretty;
     parseFloat_empty := eq_refl;
     parseInt10_empty := eq_refl |}.

(** A comparator that subtracts keys, as both comparators of the source do. *)
Definition keyCmp {A : Type} (k : A -> Z) (a b : A) : Z := k a - k b.



(** An entry with its id put aside, to compare entries across a renumbering. *)
Definition sans_id (co : ChangeOrder) : ChangeOrder := with_id 0 co.

(** [m] is the greatest member of [xs] with [0] added. *)
Definition is_max0 (m : Z) (xs : list Z) : Prop :=
  (m = 0 \/ In m xs) /\ 0 <= m /\ Forall (fun x => x <= m) xs.

(** [In Progress] and [Completed], which [handleSave] does not override. *)
Definition sticky (s : ChangeOrderStatus) : Prop :=
  s = CO_InProgress \/ s = CO_Completed.

(** The sum of a list of amounts. *)
Definition sumZ (xs : list Z) : Z := fold_right Z.add 0 xs.

(** What [handleSubmit] emits for an included internal row and for a named
    third-party row. *)
Definition emitInternal (approverConfig : gmap string string)
    (app : InternalApproverControl) : Approval :=
  mkApproval (configuredName approverConfig (role app)) (ctl_status app)
    (orNull (Some (ctl_approvalDate app))).

Definition emitThirdParty (app : Approval) : Approval :=
  mkApproval (name app) (status app) (orNull (approvalDate app)).

(** Title, description or reason is blank. *)
Definition requiredTextMissing `{Builtins} (co : ChangeOrder) : bool :=
  isBlank (title co) || isBlank (description co) || isBlank (reason co).

(** ** Sample data *)

Definition sampleSettings : AppSettings := mkAppSettings "" "" "" ∅.

Definition sampleOrder (i : Z) (date : string) (cost days : Z)
    (s : ChangeOrderStatus) (apps : list Approval) : ChangeOrder :=
  mkChangeOrder i "Valve" "Replace valve" "Leak" s date cost 0 0 "" days apps.

Definition sampleState (orders : list ChangeOrder) (selected : gset Z) : AppState :=
  mkAppState orders None FormView false false selected sampleSettings [].

(** A project file reader for the examples: four JSON texts are read, any
    other text is refused; settings and orders keep what the examples use. *)
Definition quoted (s : string) : string :=
  let q := String (ascii_of_nat 34) EmptyString in (q +:+ s +:+ q)%string.

Definition sampleFileText : string :=
  ("{" +:+ quoted "settings" +:+ ":{" +:+ quoted "projectName" +:+ ":" +:+
   quoted "Main St" +:+ "}," +:+ quoted "changeOrders" +:+ ":[{" +:+
   quoted "id" +:+ ":8}]}")%string.

Definition sampleParse (s : string) : option JSON :=
  if bool_decide (s = sampleFileText) then
    Some (JObj {[ "settings"%string := JObj {[ "projectName"%string := JStr "Main St" ]};
                  "changeOrders"%string := JArr [JObj {[ "id"%string := JNum 8 ]}] ]})
  else if bool_decide (s = "{}"%string) then Some (JObj ∅)
  else if bool_decide (s = "[]"%string) then Some (JArr [])
  else if bool_decide (s = "null"%string) then Some JNull
  else None.

Definition readText (v : option JSON) : string :=
  match v with
  | Some (JStr s) => s
  | _ => ""
  end.

Definition readNum (v : option JSON) : Z :=
  match v with
  | Some (JNum n) => n
  | _ => 0
  end.

Definition sampleProjectFile : ProjectFile :=
  {| JSON_parse := sampleParse;
     asSettings := fun v =>
       mkAppSettings (readText (getProp v "projectName"))
         (readText (getProp v "projectLocation"))
         (readText (getProp v "projectManager")) ∅;
     asChangeOrder := fun v =>
       mkChangeOrder (readNum (getProp v "id")) (readText (getProp v "title"))
         (readText (getProp v "description")) (readText (getProp v "reason"))
         CO_PendingApproval (readText (getProp v "dateRequested"))
         (readNum (getProp v "costImpactEquipment"))
         (readNum (getProp v "costImpactInstallation"))
         (readNum (getProp v "costImpactOther"))
         (readText (getProp v "otherCostsExplanation"))
         (readNum (getProp v "scheduleImpactDays")) [] |}.

(** ** The other handlers of [App] (lines 361-378, 413-419) *)

Definition handleCreateNew (st : AppState) : AppState :=
  mkAppState (changeOrders st) None FormView (isDeleteConfirmOpen st)
    (isRenumberConfirmOpen st) (selectedOrderIds st) (settings st) (alerts st).


Definition handleCancel (st : AppState) : AppState :=
  mkAppState (changeOrders st) None TableView (isDeleteConfirmOpen st)
    (isRenumberConfirmOpen st) ∅ (settings st) (alerts st).

Definition handleDeleteSelected (st : AppState) : AppState :=
  if bool_decide (size (selectedOrderIds st) = 0%nat) then
    mkAppState (changeOrders st) (currentOrder st) (view st) (isDeleteConfirmOpen st)
      (isRenumberConfirmOpen st) (selectedOrderIds st) (settings st)
      (alerts st ++ ["No change orders selected for deletion."%string])
  else
    mkAppState (changeOrders st) (currentOrder st) (view st) true
      (isRenumberConfirmOpen st) (selectedOrderIds st) (settings st) (alerts st).

(** ** The selection of [ChangeOrderTable] (lines 776-813) *)

(** [handleSelectAll]: the checkbox state and the rows now shown. *)
Definition handleSelectAll (isChecked : bool) (filtered : list ChangeOrder)
    (prevSelected : gset Z) : gset Z :=
  if isChecked
  then fold_left (fun newSelected co => {[id co]} ∪ newSelected) filtered prevSelected
  else fold_left (fun newSelected co => newSelected ∖ {[id co]}) filtered prevSelected.

Definition handleSelectSingle (isChecked : bool) (i : Z) (prev : gset Z) : gset Z :=
  if isChecked then {[i]} ∪ prev else prev ∖ {[i]}.

(** [new Set(filteredChangeOrders.map(co => co.id))] *)
Definition allFilteredIds (filtered : list ChangeOrder) : gset Z :=
  list_to_set (map id filtered).

Definition isSelectAllChecked (selected : gset Z) (filtered : list ChangeOrder) : bool :=
  if bool_decide (size (allFilteredIds filtered) = 0%nat) then false
  else forallb (fun i => bool_decide (i ∈ selected)) (elements (allFilteredIds filtered)).

(** ** The third-party rows of the form (lines 1054-1077) *)

(** The three [field, value] pairs the third-party rows send. *)
Inductive ThirdPartyEdit : Set :=
  | TP_SetName (value : string)
  | TP_SetStatus (value : ApprovalStatus)
  | TP_SetApprovalDate (value : string).

(** The body of [handleThirdPartyApproverChange] on the row it picks. *)
Definition editThirdParty (e : ThirdPartyEdit) (a : Approval) : Approval :=
  match e with
  | TP_SetName value => mkApproval value (status a) (approvalDate a)
  | TP_SetApprovalDate value =>
      if truthy value && bool_decide (status a = AS_Pending)
      then mkApproval (name a) AS_Approved (Some value)
      else mkApproval (name a) (status a) (Some value)
  | TP_SetStatus value =>
      if bool_decide (value = AS_Pending)
      then mkApproval (name a) value (Some ""%string)
      else mkApproval (name a) value (approvalDate a)
  end.

Definition handleThirdPartyApproverChange (fs : FormState) (index : nat)
    (e : ThirdPartyEdit) : FormState :=
  mkFormState (formData fs) (internalApprovers fs)
    (alter (editThirdParty e) index (thirdPartyApprovers fs)) (errors fs).

Definition addThirdPartyApprover (fs : FormState) : FormState :=
  mkFormState (formData fs) (internalApprovers fs)
    (thirdPartyApprovers fs ++ [mkApproval "" AS_Pending (Some ""%string)])
    (errors fs).

(** [prev.filter((_, i) => i !== index)] *)
Definition removeThirdPartyApprover (fs : FormState) (index : nat) : FormState :=
  mkFormState (formData fs) (internalApprovers fs)
    (delete index (thirdPartyApprovers fs)) (errors fs).

(** What the user can do in the form before submitting. *)
Inductive FormEvent : Set :=
  | EvChange (target : InputTarget)
  | EvInternal (index : nat) (e : ControlEdit)
  | EvThirdParty (index : nat) (e : ThirdPartyEdit)
  | EvAddThirdParty
  | EvRemoveThirdParty (index : nat).

Definition formStep `{Builtins} (fs : FormState) (ev : FormEvent) : FormState :=
  match ev with
  | EvChange target => handleChange fs target
  | EvInternal index e => handleInternalApproverChange fs index e
  | EvThirdParty index e => handleThirdPartyApproverChange fs index e
  | EvAddThirdParty => addThirdPartyApprover fs
  | EvRemoveThirdParty index => removeThirdPartyApprover fs index
  end.

(** ** [SettingsModal] (lines 642-661) *)
Module SettingsModal.

(** [handleChange(field, value)], sent by the three text inputs. *)
Definition handleChange (localSettings : AppSettings) (field value : string)
  : AppSettings :=
  if bool_decide (field = "projectName"%string) then
    mkAppSettings value (projectLocation localSettings) (projectManager localSettings)
      (approverConfig localSettings)
  else if bool_decide (field = "projectLocation"%string) then
    mkAppSettings (projectName localSettings) value (projectManager localSettings)
      (approverConfig localSettings)
  else if bool_decide (field = "projectManager"%string) then
    mkAppSettings (projectName localSettings) (projectLocation localSettings) value
      (approverConfig localSettings)
  else localSettings.

Definition handleApproverChange (localSettings : AppSettings) (role name : string)
  : AppSettings :=
  mkAppSettings (projectName localSettings) (projectLocation localSettings)
    (projectManager localSettings) (<[role := name]> (approverConfig localSettings)).

End SettingsModal.

(** ** The figures of the report summary ([generatePdfReport], lines 114-126) *)

Definition getTotalCost (orders : list ChangeOrder) : Z :=
  fold_left
    (fun sum co =>
       sum + costImpactEquipment co + costImpactInstallation co + costImpactOther co)
    orders 0.

Definition approvedOrders (changeOrders : list ChangeOrder) : list ChangeOrder :=
  List.filter
    (fun co => bool_decide (co_status co ∈ [CO_Approved; CO_InProgress; CO_Completed]))
    changeOrders.

Definition pendingOrders (changeOrders : list ChangeOrder) : list ChangeOrder :=
  List.filter (fun co => bool_decide (co_status co = CO_PendingApproval)) changeOrders.

Definition rejectedOrders (changeOrders : list ChangeOrder) : list ChangeOrder :=
  List.filter (fun co => bool_decide (co_status co = CO_Rejected)) changeOrders.

Definition totalCostAll (changeOrders : list ChangeOrder) : Z :=
  if 0 <? Z.of_nat (length changeOrders) then getTotalCost changeOrders else 0.

Definition totalDaysApproved (changeOrders : list ChangeOrder) : Z :=
  fold_left (fun sum co => sum + scheduleImpactDays co) (approvedOrders changeOrders) 0.

(** [setSelectedOrderIds], which [App] passes to the table. *)
Definition setSelectedOrderIds (st : AppState) (selected : gset Z) : AppState :=
  mkAppState (changeOrders st) (currentOrder st) (view st) (isDeleteConfirmOpen st)
    (isRenumberConfirmOpen st) selected (settings st) (alerts st).

(** ** The settings kept in local storage (lines 346-359) *)

(** [typeof v === 'object'] for a property value: objects, arrays and
    [null]. *)
Definition typeofObject (v : option JSON) : bool :=
  match v with
  | Some JNull => true
  | Some (JArr _) => true
  | Some (JObj _) => true
  | _ => false
  end.

(** The effect run once at start-up; [saved] is
    [localStorage.getItem('appSettings')], [None] for [null].  Whatever is
    thrown inside is caught and logged, and the settings are not set. *)
Definition loadSavedSettings `{ProjectFile} (st : AppState) (saved : option string)
  : AppState :=
  match saved with
  | Some savedSettings =>
      if truthy savedSettings then
        match JSON_parse savedSettings with
        | Some parsedSettings =>
            if truthyJ (Some parsedSettings) &&
               typeofObject (getProp parsedSettings "approverConfig")
            then
              mkAppState (changeOrders st) (currentOrder st) (view st)
                (isDeleteConfirmOpen st) (isRenumberConfirmOpen st)
                (selectedOrderIds st) (asSettings parsedSettings) (alerts st)
            else st
        | None => st
        end
      else st
  | None => st
  end.

(** ** Notions used by the properties of these handlers *)

(** Every id is positive and no two entries share one. *)
Definition idsOk (cos : list ChangeOrder) : Prop :=
  NoDup (map id cos) /\ Forall (fun co => 0 < id co) cos.

(** A row or an approval that is pending carries no date. *)
Definition controlOk (c : InternalApproverControl) : Prop :=
  ctl_status c = AS_Pending -> ctl_approvalDate c = ""%string.

Definition thirdPartyOk (a : Approval) : Prop :=
  status a = AS_Pending -> approvalDate a = Some ""%string \/ approvalDate a = None.

Definition approvalOk (a : Approval) : Prop :=
  status a = AS_Pending -> approvalDate a = None.

(** An approval as [handleSubmit] writes it: an empty date becomes [null]. *)
Definition normalized (a : Approval) : Approval :=
  mkApproval (name a) (status a) (orNull (approvalDate a)).

(** * Properties *)

(** ** The sort *)

Section Sort.
Context {A : Type}.
Implicit Types (cmp : A -> A -> Z) (k : A -> Z) (l : list A).

Lemma sort_insert_perm cmp x l : Permutation (sort_insert cmp x l) (x :: l).
Proof.
  induction l as [|y l IH]; simpl; [reflexivity|].
  destruct (cmp x y <=? 0); [reflexivity|].
  rewrite IH. apply perm_swap.
Qed.

Lemma js_sort_perm cmp l : Permutation (js_sort cmp l) l.
Proof.
  induction l as [|x l IH]; simpl; [constructor|].
  rewrite sort_insert_perm. by constructor.
Qed.

Lemma js_sort_In cmp l x : In x (js_sort cmp l) <-> In x l.
Proof.
  split; apply Permutation_in; [|symmetry]; apply js_sort_perm.
Qed.

Lemma js_sort_length cmp l : length (js_sort cmp l) = length l.
Proof. apply Permutation_length, js_sort_perm. Qed.

(** Only the comparisons between members of the list matter. *)
Lemma sort_insert_ext cmp cmp' x l :
  (forall y, In y l -> (cmp x y <=? 0) = (cmp' x y <=? 0)) ->
  sort_insert cmp x l = sort_insert cmp' x l.
Proof.
  induction l as [|y l IH]; intros E; simpl; [done|].
  rewrite (E y) by (by left).
  destruct (cmp' x y <=? 0); [done|].
  f_equal. apply IH. intros z Hz. apply E. by right.
Qed.

Lemma js_sort_ext cmp cmp' l :
  (forall x y, In x l -> In y l -> (cmp x y <=? 0) = (cmp' x y <=? 0)) ->
  js_sort cmp l = js_sort cmp' l.
Proof.
  induction l as [|x l IH]; intros E; simpl; [done|].
  rewrite IH.
  - apply sort_insert_ext. intros y Hy. apply js_sort_In in Hy.
    apply E; [by left | by right].
  - intros a b Ha Hb. apply E; by right.
Qed.

Lemma sort_insert_sorted k x l :
  StronglySorted (fun a b => k a <= k b) l ->
  StronglySorted (fun a b => k a <= k b) (sort_insert (keyCmp k) x l).
Proof.
  induction 1 as [|y l Hl IH Hy]; simpl.
  - repeat constructor.
  - unfold keyCmp at 1. destruct (Z.leb_spec (k x - k y) 0) as [Hle|Hgt].
    + constructor; [by constructor|].
      constructor; [lia|].
      eapply Forall_impl; [exact Hy|]. simpl. intros; lia.
    + constructor; [exact IH|].
      apply List.Forall_forall. intros z Hz.
      apply (Permutation_in _ (sort_insert_perm _ _ _)) in Hz.
      destruct Hz as [<-|Hz]; [lia|].
      rewrite List.Forall_forall in Hy. by apply Hy.
Qed.

Lemma js_sort_sorted k l :
  StronglySorted (fun a b => k a <= k b) (js_sort (keyCmp k) l).
Proof.
  induction l as [|x l IH]; simpl; [constructor|].
  by apply sort_insert_sorted.
Qed.



End Sort.

(** ** Status derivation *)

Lemma isRejected_true (apps : list Approval) :
  isRejected apps = true <-> exists app, In app apps /\ status app = AS_Rejected.
Proof.
  unfold isRejected. rewrite existsb_exists.
  split; intros (app & Hin & Hs); exists app; split; auto.
  - by apply bool_decide_eq_true in Hs.
  - by apply bool_decide_eq_true.
Qed.

Lemma isRejected_false (apps : list Approval) :
  isRejected apps = false <-> forall app, In app apps -> status app <> AS_Rejected.
Proof.
  rewrite <- Bool.not_true_iff_false, isRejected_true. split.
  - intros Hn app Hin Hs. apply Hn. by exists app.
  - intros Hall (app & Hin & Hs). by apply (Hall app).
Qed.

Lemma isFullyApproved_true (apps : list Approval) :
  isFullyApproved apps = true <->
  apps <> [] /\ forall app, In app apps -> status app = AS_Approved.
Proof.
  unfold isFullyApproved. rewrite andb_true_iff, forallb_forall, Z.ltb_lt.
  split; intros [Hne Hall]; split.
  - intros ->. simpl in Hne. lia.
  - intros app Hin. specialize (Hall app Hin). by apply bool_decide_eq_true in Hall.
  - destruct apps; [done|]. simpl length. lia.
  - intros app Hin. by apply bool_decide_eq_true_2, Hall.
Qed.

Lemma savedOrders_In (cos : list ChangeOrder) (o co : ChangeOrder) :
  In co (savedOrders cos o) ->
  In co cos \/ co = orderToSave o \/ co = with_id (newCoId cos) (orderToSave o).
Proof.
  unfold savedOrders. cbv zeta. case_bool_decide as Hid.
  - rewrite js_sort_In, in_app_iff. simpl. intuition.
  - rewrite in_map_iff. intros (x & Hx & Hin).
    case_bool_decide; subst; auto.
Qed.

(** C1.  When some approval of the order handed to [handleSave] is
    [Rejected], the order to save has status [Rejected], whatever the other
    approvals and the status carried in from the form; every entry that the
    save puts into the collection has that status, and the save does put the
    order there: as a new entry when its id is 0, in place of the entry
    with its id otherwise. *)
Theorem handleSave_rejected (st : AppState) (o : ChangeOrder) :
  (exists app, In app (approvals o) /\ status app = AS_Rejected) ->
  co_status (orderToSave o) = CO_Rejected /\
  (forall co, In co (changeOrders (handleSave st o)) ->
              ~ In co (changeOrders st) -> co_status co = CO_Rejected) /\
  (id o = 0 ->
   In (with_id (newCoId (changeOrders st)) (orderToSave o))
      (changeOrders (handleSave st o))) /\
  (id o <> 0 -> (exists co, In co (changeOrders st) /\ id co = id o) ->
   In (orderToSave o) (changeOrders (handleSave st o))).
Proof.
  intros Hrej. apply isRejected_true in Hrej.
  assert (Hs : co_status (orderToSave o) = CO_Rejected).
  { simpl. unfold newStatus. cbv zeta. by rewrite Hrej. }
  split; [exact Hs|]. split; [|split].
  - intros co Hin Hold. simpl in Hin.
    apply savedOrders_In in Hin as [Hin|[->| ->]]; [done|exact Hs|exact Hs].
  - intros Hid. simpl. unfold savedOrders. cbv zeta.
    rewrite bool_decide_eq_true_2 by exact Hid.
    apply js_sort_In, in_app_iff. right. by left.
  - intros Hid (co & Hin & Hco). simpl. unfold savedOrders. cbv zeta.
    rewrite bool_decide_eq_false_2 by exact Hid.
    apply in_map_iff. exists co. split; [|exact Hin].
    by rewrite bool_decide_eq_true_2.
Qed.

(** C2.  When no approval of the order handed to [handleSave] is
    [Rejected]: a status [In Progress] or [Completed] is kept; otherwise the
    order to save is [Approved] when there is an approval and all are
    [Approved], and [Pending Approval] when there is none or one of them is
    [Pending]. *)
Theorem handleSave_not_rejected (o : ChangeOrder) :
  (forall app, In app (approvals o) -> status app <> AS_Rejected) ->
  (sticky (co_status o) -> co_status (orderToSave o) = co_status o) /\
  (~ sticky (co_status o) -> approvals o <> [] ->
   (forall app, In app (approvals o) -> status app = AS_Approved) ->
   co_status (orderToSave o) = CO_Approved) /\
  (~ sticky (co_status o) ->
   approvals o = [] \/ (exists app, In app (approvals o) /\ status app = AS_Pending) ->
   co_status (orderToSave o) = CO_PendingApproval).
Proof.
  intros Hno. apply isRejected_false in Hno.
  simpl. unfold newStatus, sticky. cbv zeta. rewrite Hno.
  split; [|split].
  - intros [Hs|Hs]; rewrite Hs; by destruct (isFullyApproved (approvals o)).
  - intros Hns Hne Hall.
    rewrite (proj2 (isFullyApproved_true _)) by done.
    rewrite !bool_decide_eq_true_2; [done| |]; intros E; apply Hns; auto.
  - intros Hns Hpend.
    assert (Hf : isFullyApproved (approvals o) = false).
    { apply Bool.not_true_iff_false. rewrite isFullyApproved_true.
      intros [Hne Hall]. destruct Hpend as [He|(app & Hin & Hp)]; [done|].
      specialize (Hall app Hin). congruence. }
    rewrite Hf.
    rewrite !bool_decide_eq_true_2; [done| |]; intros E; apply Hns; auto.
Qed.

(** ** Create *)

Lemma StronglySorted_weaken {A : Type} (R R' : A -> A -> Prop) (l : list A) :
  (forall a b, R a b -> R' a b) -> StronglySorted R l -> StronglySorted R' l.
Proof.
  intros HR. induction 1 as [|x l Hl IH Hx]; constructor; [exact IH|].
  eapply Forall_impl; [exact Hx|]. apply HR.
Qed.

Lemma fold_max_spec (xs : list Z) (a : Z) :
  let r := fold_left Z.max xs a in
  (r = a \/ In r xs) /\ a <= r /\ Forall (fun x => x <= r) xs.
Proof.
  revert a. induction xs as [|x xs IH]; intros a; simpl.
  - split; [by left|]. split; [lia|constructor].
  - destruct (IH (Z.max a x)) as (Hin & Hle & Hall).
    split; [|split].
    + destruct Hin as [Hr|Hr]; [|by right; right].
      rewrite Hr. destruct (Z.max_spec a x) as [[_ ->]|[_ ->]]; auto.
    + lia.
    + constructor; [lia|exact Hall].
Qed.

Lemma Math_max0_spec (xs : list Z) : is_max0 (Math_max0 xs) xs.
Proof. apply (fold_max_spec xs 0). Qed.

Lemma sort_by_id_descending (l : list ChangeOrder) :
  js_sort (fun a b => id b - id a) l = js_sort (keyCmp (fun a => - id a)) l.
Proof.
  apply js_sort_ext. intros x y _ _. unfold keyCmp. f_equal. lia.
Qed.

(** C3.  A save of an order with id 0 stores it under the id [m + 1], where
    [m] is the greatest of the ids of the collection and 0 (so under id 1
    when the collection is empty); the new collection holds the new entry
    and the old ones, and is in descending order of id. *)
Theorem handleSave_create (st : AppState) (o : ChangeOrder) :
  id o = 0 ->
  exists m newOrder,
    is_max0 m (map id (changeOrders st)) /\
    newOrder = with_id (m + 1) (orderToSave o) /\
    Permutation (changeOrders (handleSave st o)) (newOrder :: changeOrders st) /\
    (changeOrders st = [] -> id newOrder = 1) /\
    StronglySorted (fun a b => id b <= id a) (changeOrders (handleSave st o)).
Proof.
  intros Hid.
  exists (Math_max0 (map id (changeOrders st))),
         (with_id (newCoId (changeOrders st)) (orderToSave o)).
  simpl. unfold savedOrders. cbv zeta.
  rewrite bool_decide_eq_true_2 by exact Hid.
  split; [apply Math_max0_spec|]. split; [done|]. split; [|split].
  - rewrite js_sort_perm. symmetry. apply Permutation_cons_append.
  - by intros ->.
  - rewrite sort_by_id_descending.
    eapply StronglySorted_weaken; [|apply js_sort_sorted].
    simpl. intros a b. lia.
Qed.

(** ** Renumber *)

Section Renumber.
Context `{Builtins}.



Lemma renum_sans_id (i : Z) (l : list ChangeOrder) :
  map sans_id (mapi_from renumberEntry i l) = map sans_id l.
Proof.
  revert i. induction l as [|x l IH]; intros i; simpl; [done|].
  by rewrite IH.
Qed.

Lemma renum_ids (i : Z) (l : list ChangeOrder) :
  map id (mapi_from renumberEntry i l) =
  map (fun n => i + Z.of_nat n) (seq 1 (length l)).
Proof.
  revert i. induction l as [|x l IH]; intros i; [done|].
  cbn [mapi_from map length seq]. rewrite IH. f_equal.
  rewrite <- (seq_shift (length l) 1), map_map. apply map_ext. intros n. lia.
Qed.






End Renumber.

(** ** Collapse of the approver rows *)

Lemma fold_push_filter_map {A B : Type} (keep : A -> bool) (emit : A -> B)
    (rows : list A) (acc : list B) :
  fold_left (fun acc row => if keep row then acc ++ [emit row] else acc) rows acc =
  acc ++ map emit (List.filter keep rows).
Proof.
  revert acc. induction rows as [|row rows IH]; intros acc; simpl.
  - by rewrite app_nil_r.
  - rewrite IH. destruct (keep row); [|done].
    by rewrite <- app_assoc.
Qed.

Lemma finalApprovals_eq (cfg : gmap string string) (fs : FormState) :
  finalApprovals cfg fs =
  map (emitInternal cfg) (List.filter included (internalApprovers fs)) ++
  map emitThirdParty (List.filter (fun app => truthy (name app)) (thirdPartyApprovers fs)).
Proof.
  unfold finalApprovals. cbv zeta.
  rewrite (fold_push_filter_map included (emitInternal cfg)).
  by rewrite (fold_push_filter_map (fun app => truthy (name app)) emitThirdParty).
Qed.

(** The internal rows are those of the configured roles, in the order of
    [APPROVER_ROLES], when the form is loaded and after every edit of a row. *)
Lemma loadForm_roles `{Builtins} (today : string) (order : option ChangeOrder)
    (cfg : gmap string string) :
  map role (internalApprovers (loadForm today order cfg)) =
  configuredInternalApprovers cfg.
Proof.
  unfold loadForm. cbv zeta. simpl. rewrite map_map.
  rewrite <- (map_id (configuredInternalApprovers cfg)) at 2.
  apply map_ext. intros r. by destruct (List.find _ _).
Qed.

Lemma handleInternalApproverChange_roles (fs : FormState) (index : nat)
    (e : ControlEdit) :
  map role (internalApprovers (handleInternalApproverChange fs index e)) =
  map role (internalApprovers fs).
Proof.
  simpl. generalize (internalApprovers fs). intros l. revert index.
  induction l as [|c l IH]; intros [|n]; try done.
  - cbn. f_equal. destruct e; simpl; repeat case_match; done.
  - cbn. f_equal. apply IH.
Qed.

(** C5.  The approvals that [handleSubmit] hands to [onSave] are the
    internal rows with [included] set, each as the configured name of its
    role with the row's status and date, in the order of the rows, followed
    by the third-party rows whose name is not empty, in their order.  The
    other rows are left out and raise nothing: whether the submit is blocked
    depends on title, description and reason alone. *)
Theorem handleSubmit_collapse `{Builtins} (cfg : gmap string string) (fs : FormState) :
  let kept :=
    map (emitInternal cfg) (List.filter included (internalApprovers fs)) ++
    map emitThirdParty
      (List.filter (fun app => truthy (name app)) (thirdPartyApprovers fs)) in
  finalApprovals cfg fs = kept /\
  snd (handleSubmit cfg fs) =
    if requiredTextMissing (formData fs)
    then Blocked
      "Please fill out Title, Description, and Reason for Change before saving."
    else OnSave (with_approvals kept (formData fs)).
Proof.
  cbv zeta. split; [apply finalApprovals_eq|].
  unfold handleSubmit, requiredTextMissing. cbv zeta.
  destruct (_ || _ || _); simpl; [done|].
  by rewrite finalApprovals_eq.
Qed.

(** ** Filter and total *)

Lemma reduceCost_from (orders : list ChangeOrder) (a : Z) :
  fold_left
    (fun total order =>
       total + costImpactEquipment order + costImpactInstallation order +
       costImpactOther order)
    orders a = a + sumZ (map totalCost orders).
Proof.
  revert a. induction orders as [|o orders IH]; intros a; simpl; [lia|].
  rewrite IH. unfold totalCost. lia.
Qed.

Lemma filterMatch_default `{Builtins} (co : ChangeOrder) :
  filterMatch defaultFilters co = true.
Proof.
  unfold filterMatch. cbv zeta. simpl.
  by rewrite parseFloat_empty, parseInt10_empty.
Qed.

(** C6.  With the default criteria the filter returns the collection as it
    is ([parseFloat] and [parseInt] give [NaN] on the empty string, the two
    facts recorded in [Builtins]); for any criteria the total shown is the
    sum of [totalCost] over the entries the filter returns. *)
Theorem filter_default_and_total `{Builtins} (cos : list ChangeOrder) (filters : Filters) :
  filteredChangeOrders cos defaultFilters = cos /\
  totalCostImpact cos filters =
    sumZ (map totalCost (filteredChangeOrders cos filters)).
Proof.
  split.
  - unfold filteredChangeOrders. induction cos as [|co cos IH]; [done|].
    simpl. by rewrite filterMatch_default, IH.
  - unfold totalCostImpact, reduceCost. by rewrite reduceCost_from.
Qed.

(** ** Update *)

(** C7, as the code has it.  A save of an order with an id other than 0 puts
    the order to save at every position whose entry has that id and leaves
    every other position as it is, so nothing moves; when no entry has the
    id, the collection is the same after the save, and the save ends as any
    other does: no message, the table shown, the selection emptied. *)
Theorem handleSave_update (st : AppState) (o : ChangeOrder) :
  id o <> 0 ->
  (forall i : nat,
     changeOrders (handleSave st o) !! i =
     (fun co => if bool_decide (id co = id o) then orderToSave o else co) <$>
       (changeOrders st !! i)) /\
  ((forall co, In co (changeOrders st) -> id co <> id o) ->
   handleSave st o =
   mkAppState (changeOrders st) None TableView (isDeleteConfirmOpen st)
     (isRenumberConfirmOpen st) ∅ (settings st) (alerts st)).
Proof.
  intros Hid.
  assert (Hs : savedOrders (changeOrders st) o =
               map (fun co => if bool_decide (id co = id o) then orderToSave o else co)
                 (changeOrders st)).
  { unfold savedOrders. cbv zeta. by rewrite bool_decide_eq_false_2. }
  split.
  - intros i. simpl. rewrite Hs. apply list_lookup_fmap.
  - intros Hnone. unfold handleSave. rewrite Hs. f_equal.
    revert Hnone. generalize (changeOrders st). intros l Hnone.
    induction l as [|co cos IH]; [done|].
    simpl. rewrite bool_decide_eq_false_2 by (apply Hnone; by left).
    f_equal. apply IH. intros c Hc. apply Hnone. by right.
Qed.

(** C7 as the specification words it does not hold: a save under an id that
    no entry has reports nothing and ends as a save that replaced an entry. *)
Lemma handleSave_update_missing_id :
  let st := sampleState [sampleOrder 1 "2024-01-10" 100 0 CO_Approved []] {[1]} in
  let o := sampleOrder 7 "2024-02-15" 250 3 CO_PendingApproval [] in
  id o <> 0 /\
  (forall co, In co (changeOrders st) -> id co <> id o) /\
  handleSave st o =
    mkAppState (changeOrders st) None TableView false false ∅ sampleSettings [].
Proof.
  cbv zeta. split; [done|]. split; [|reflexivity].
  intros co Hin. simpl in Hin. destruct Hin as [<-|[]]. done.
Qed.

(** ** Import *)

(** C8.  When the text of the file does not parse, or the parsed value has
    no truthy [settings], or its [changeOrders] is not an array, the import
    raises its error message and keeps the collection and the settings; when
    the text parses to a value with a truthy [settings] and an array
    [changeOrders], both are replaced by the values of the file. *)
Theorem handleFileImport_spec `{ProjectFile} (st : AppState) (fileContent : string) :
  let st' := handleFileImport st (Loaded fileContent) in
  ((JSON_parse fileContent = None \/
    exists data, JSON_parse fileContent = Some data /\
      (truthyJ (getProp data "settings") = false \/
       isArray (getProp data "changeOrders") = false)) ->
   changeOrders st' = changeOrders st /\ settings st' = settings st /\
   alerts st' =
     alerts st ++ ["Error: The selected file is not a valid project file."%string]) /\
  (forall data s items,
     JSON_parse fileContent = Some data ->
     getProp data "settings" = Some s -> truthyJ (Some s) = true ->
     getProp data "changeOrders" = Some (JArr items) ->
     changeOrders st' = map asChangeOrder items /\ settings st' = asSettings s /\
     alerts st' = alerts st ++ ["Project imported successfully!"%string]).
Proof.
  cbv zeta. split.
  - intros Hbad.
    assert (Hnone : tryImport fileContent = None).
    { unfold tryImport. destruct Hbad as [->|(data & -> & Hbad)]; [done|].
      assert (Hc : negb (truthyJ (getProp data "settings")) ||
                   negb (isArray (getProp data "changeOrders")) = true).
      { destruct Hbad as [-> | ->]; [done|]. apply orb_true_r. }
      destruct data; try done; by rewrite Hc. }
    simpl. by rewrite Hnone.
  - intros data s items Hparse Hs Ht Ha.
    assert (Hsome : tryImport fileContent =
                    Some (asSettings s, map asChangeOrder items)).
    { unfold tryImport. rewrite Hparse.
      destruct data; try done. by rewrite Hs, Ha, Ht. }
    simpl. by rewrite Hsome.
Qed.

(** ** Validation at submit *)

(** C9, as the code has it.  A submit is blocked exactly when title,
    description or reason is blank: then the collection is as before, the
    message is raised and the form keeps its data for another try.  In every
    other case the order goes to [handleSave], whatever its numbers are.  A
    negative entry in a number input is stored and flagged for display; an
    entry that does not parse is stored as 0 and not flagged. *)
Theorem submitForm_blocked_by_text_only `{Builtins} (st : AppState) (fs : FormState) :
  (requiredTextMissing (formData fs) = true ->
   changeOrders (fst (submitForm st fs)) = changeOrders st /\
   formData (snd (submitForm st fs)) = formData fs /\
   alerts (fst (submitForm st fs)) =
     alerts st ++
     ["Please fill out Title, Description, and Reason for Change before saving."%string]) /\
  (requiredTextMissing (formData fs) = false ->
   fst (submitForm st fs) =
   handleSave st
     (with_approvals (finalApprovals (approverConfig (settings st)) fs) (formData fs))) /\
  (forall target v,
     target_type target = "number"%string ->
     parseFloat (target_value target) = Some v -> v < 0 ->
     errors (handleChange fs target) !! target_name target =
       Some "Must be a non-negative number."%string /\
     formData (handleChange fs target) = setNumber (target_name target) v (formData fs)) /\
  (forall target,
     target_type target = "number"%string ->
     parseFloat (target_value target) = None ->
     errors (handleChange fs target) !! target_name target = None /\
     formData (handleChange fs target) = setNumber (target_name target) 0 (formData fs)).
Proof.
  split; [|split; [|split]].
  - unfold requiredTextMissing, submitForm, handleSubmit. cbv zeta.
    by intros ->.
  - unfold requiredTextMissing, submitForm, handleSubmit. cbv zeta.
    by intros ->.
  - intros target v Hty Hv Hneg. unfold handleChange. cbv zeta.
    rewrite Hty, Hv. simpl.
    rewrite (proj2 (Z.ltb_lt v 0) Hneg). split; [|done].
    apply lookup_insert_eq.
  - intros target Hty Hv. unfold handleChange. cbv zeta.
    rewrite Hty, Hv. simpl. split; [|done].
    apply lookup_delete_eq.
Qed.

(** C9 as the specification words it does not hold: a negative equipment
    cost, flagged by [handleChange], passes [handleSubmit] and is stored by
    [handleSave]. *)
Lemma negative_cost_is_saved :
  let fs0 :=
    mkFormState (sampleOrder 0 "2024-03-01" 0 0 CO_PendingApproval []) [] [] ∅ in
  let fs :=
    @handleChange plainBuiltins fs0 (mkTarget "costImpactEquipment" "-5" "number") in
  let st := sampleState [] ∅ in
  errors fs !! "costImpactEquipment"%string =
    Some "Must be a non-negative number."%string /\
  snd (@handleSubmit plainBuiltins ∅ fs) =
    OnSave (sampleOrder 0 "2024-03-01" (-5) 0 CO_PendingApproval []) /\
  changeOrders (fst (@submitForm plainBuiltins st fs)) =
    [sampleOrder 1 "2024-03-01" (-5) 0 CO_PendingApproval []].
Proof. cbv zeta. split; [|split]; vm_compute; reflexivity. Qed.

(** ** Selection *)

(** C10.  Each command that reaches its [setChangeOrders] call (a save, a
    confirmed delete, a renumbering of a collection that is not empty, an
    import that is accepted) leaves the set of selected ids empty. *)
Theorem run_clears_selection `{Builtins} `{ProjectFile} (st : AppState) (c : Command) :
  completes st c = true -> selectedOrderIds (run st c) = ∅.
Proof.
  destruct c as [o| | |[| |fileContent]]; simpl; try done.
  - unfold handleRenumber. by destruct (bool_decide _).
  - by destruct (tryImport fileContent) as [[newSettings newOrders]|].
Qed.

(** ** The theorems at concrete inputs, and the scenarios of the
       specification *)

Lemma handleSave_rejected_witness :
  let o :=
    sampleOrder 0 "2024-03-01" 100 0 CO_Completed
      [mkApproval "Ann" AS_Approved (Some "2024-03-02"%string);
       mkApproval "Bob" AS_Rejected None] in
  (exists app, In app (approvals o) /\ status app = AS_Rejected) /\
  co_status (orderToSave o) = CO_Rejected.
Proof.
  cbv zeta.
  assert (Hrej : exists app,
            In app (approvals (sampleOrder 0 "2024-03-01" 100 0 CO_Completed
                      [mkApproval "Ann" AS_Approved (Some "2024-03-02"%string);
                       mkApproval "Bob" AS_Rejected None])) /\
            status app = AS_Rejected).
  { exists (mkApproval "Bob" AS_Rejected None). split; [simpl; auto|reflexivity]. }
  split; [exact Hrej|].
  exact (proj1 (handleSave_rejected (sampleState [] ∅) _ Hrej)).
Defined.

Lemma handleSave_not_rejected_witness :
  let o :=
    sampleOrder 3 "2024-03-01" 100 0 CO_InProgress
      [mkApproval "Ann" AS_Approved None; mkApproval "Bob" AS_Approved None] in
  (forall app, In app (approvals o) -> status app <> AS_Rejected) /\
  co_status (orderToSave o) = co_status o.
Proof.
  cbv zeta.
  assert (Hno : forall app,
            In app (approvals (sampleOrder 3 "2024-03-01" 100 0 CO_InProgress
                      [mkApproval "Ann" AS_Approved None;
                       mkApproval "Bob" AS_Approved None])) ->
            status app <> AS_Rejected).
  { simpl. intros app [<-|[<-|[]]]; simpl; discriminate. }
  split; [exact Hno|].
  apply (proj1 (handleSave_not_rejected _ Hno)). left. reflexivity.
Defined.

Lemma handleSave_create_witness :
  let st :=
    sampleState [sampleOrder 1 "2024-01-10" 100 0 CO_Approved [];
                 sampleOrder 3 "2024-02-15" 50 2 CO_PendingApproval []] ∅ in
  let o := sampleOrder 0 "2024-03-01" 75 1 CO_PendingApproval [] in
  id o = 0 /\
  StronglySorted (fun a b => id b <= id a) (changeOrders (handleSave st o)).
Proof.
  cbv zeta. split; [reflexivity|].
  destruct (handleSave_create
              (sampleState [sampleOrder 1 "2024-01-10" 100 0 CO_Approved [];
                            sampleOrder 3 "2024-02-15" 50 2 CO_PendingApproval []] ∅)
              (sampleOrder 0 "2024-03-01" 75 1 CO_PendingApproval []) eq_refl)
    as (m & newOrder & _ & _ & _ & _ & Hsorted).
  exact Hsorted.
Defined.

(** Scenario 1: ids 1 and 3, a create gives id 4 and the order 4, 3, 1. *)
Example create_after_1_and_3 :
  map id
    (changeOrders
       (handleSave
          (sampleState [sampleOrder 1 "2024-01-10" 100 0 CO_Approved [];
                        sampleOrder 3 "2024-02-15" 50 2 CO_PendingApproval []] ∅)
          (sampleOrder 0 "2024-03-01" 75 1 CO_PendingApproval []))) = [4; 3; 1].
Proof. reflexivity. Qed.

(** Scenarios 2 and 3. *)
Example approved_and_pending_is_pending :
  newStatus
    (sampleOrder 1 "2024-01-10" 100 0 CO_PendingApproval
       [mkApproval "Ann" AS_Approved None; mkApproval "Bob" AS_Pending None]) =
  CO_PendingApproval.
Proof. reflexivity. Qed.

Example in_progress_is_kept :
  newStatus
    (sampleOrder 1 "2024-01-10" 100 0 CO_InProgress
       [mkApproval "Ann" AS_Approved None; mkApproval "Bob" AS_Approved None]) =
  CO_InProgress.
Proof. reflexivity. Qed.


(** Scenario 4: ids 5, 2, 9 dated March, January, February become 3, 1, 2. *)
Example renumber_by_date :
  map (fun co => (id co, dateRequested co))
    (@renumberedOrders plainBuiltins
       [sampleOrder 5 "2024-03-01" 10 0 CO_Approved [];
        sampleOrder 2 "2024-01-10" 20 0 CO_Approved [];
        sampleOrder 9 "2024-02-15" 30 0 CO_Approved []]) =
  [(1, "2024-01-10"%string); (2, "2024-02-15"%string); (3, "2024-03-01"%string)].
Proof. vm_compute. reflexivity. Qed.

(** Scenario 5: bounds 1000 and 5000 on totals 500, 1200, 5000, 7000. *)
Example filter_by_cost :
  let cos :=
    [sampleOrder 1 "2024-01-10" 500 0 CO_Approved [];
     sampleOrder 2 "2024-01-11" 1200 0 CO_Approved [];
     sampleOrder 3 "2024-01-12" 5000 0 CO_Approved [];
     sampleOrder 4 "2024-01-13" 7000 0 CO_Approved []] in
  let filters := mkFilters "" "" "All" "" "1000" "5000" "" "" in
  map id (@filteredChangeOrders plainBuiltins cos filters) = [2; 3] /\
  @totalCostImpact plainBuiltins cos filters = 6200 /\
  reduceCost cos = 13700.
Proof. cbv zeta. repeat split; vm_compute; reflexivity. Qed.

(** Scenario 6: a date set on a pending row approves it. *)
Example date_on_pending_row :
  editControl (SetApprovalDate "2024-04-01")
    (mkControl "Director of Gas Operations" true AS_Pending "") =
  mkControl "Director of Gas Operations" true AS_Approved "2024-04-01".
Proof. reflexivity. Qed.

Lemma handleSave_update_witness :
  let st :=
    sampleState [sampleOrder 3 "2024-02-15" 50 2 CO_PendingApproval [];
                 sampleOrder 1 "2024-01-10" 100 0 CO_Approved []] {[1]} in
  let o :=
    sampleOrder 1 "2024-01-12" 120 4 CO_PendingApproval
      [mkApproval "Ann" AS_Approved None] in
  id o <> 0 /\
  changeOrders (handleSave st o) !! 1%nat = Some (orderToSave o).
Proof.
  cbv zeta.
  assert (Hid : id (sampleOrder 1 "2024-01-12" 120 4 CO_PendingApproval
                      [mkApproval "Ann" AS_Approved None]) <> 0) by discriminate.
  split; [exact Hid|].
  rewrite (proj1 (handleSave_update
                    (sampleState [sampleOrder 3 "2024-02-15" 50 2 CO_PendingApproval [];
                                  sampleOrder 1 "2024-01-10" 100 0 CO_Approved []] {[1]})
                    _ Hid) 1%nat).
  reflexivity.
Defined.

Lemma handleFileImport_spec_witness :
  let st := sampleState [sampleOrder 1 "2024-01-10" 100 0 CO_Approved []] {[1]} in
  (map id (changeOrders (@handleFileImport sampleProjectFile st (Loaded sampleFileText))) = [8] /\
   projectName (settings (@handleFileImport sampleProjectFile st (Loaded sampleFileText))) =
     "Main St"%string) /\
  changeOrders (@handleFileImport sampleProjectFile st (Loaded "{}")) = changeOrders st.
Proof.
  cbv zeta.
  pose proof (@handleFileImport_spec sampleProjectFile
                (sampleState [sampleOrder 1 "2024-01-10" 100 0 CO_Approved []] {[1]})
                sampleFileText) as [_ Hok].
  pose proof (@handleFileImport_spec sampleProjectFile
                (sampleState [sampleOrder 1 "2024-01-10" 100 0 CO_Approved []] {[1]})
                "{}") as [Hbad _].
  cbv zeta in Hok, Hbad. split.
  - destruct (Hok _ (JObj {[ "projectName"%string := JStr "Main St" ]})
                [JObj {[ "id"%string := JNum 8 ]}] eq_refl eq_refl eq_refl eq_refl)
      as (Hcos & Hset & _).
    rewrite Hcos, Hset. split; reflexivity.
  - apply Hbad. right. exists (JObj ∅). split; [reflexivity|]. left. reflexivity.
Defined.

Lemma submitForm_blocked_by_text_only_witness :
  let fs :=
    mkFormState (mkChangeOrder 0 "  " "Replace valve" "Leak" CO_PendingApproval
                   "2024-03-01" 5 0 0 "" 0 []) [] [] ∅ in
  let st := sampleState [sampleOrder 1 "2024-01-10" 100 0 CO_Approved []] ∅ in
  @requiredTextMissing plainBuiltins (formData fs) = true /\
  changeOrders (fst (@submitForm plainBuiltins st fs)) = changeOrders st.
Proof.
  cbv zeta. split; [reflexivity|].
  apply (proj1 (@submitForm_blocked_by_text_only plainBuiltins
                  (sampleState [sampleOrder 1 "2024-01-10" 100 0 CO_Approved []] ∅)
                  (mkFormState (mkChangeOrder 0 "  " "Replace valve" "Leak"
                                  CO_PendingApproval "2024-03-01" 5 0 0 "" 0 [])
                     [] [] ∅))).
  reflexivity.
Defined.

Lemma run_clears_selection_witness :
  let st :=
    sampleState [sampleOrder 5 "2024-03-01" 10 0 CO_Approved [];
                 sampleOrder 2 "2024-01-10" 20 0 CO_Approved []] {[2; 5]} in
  @completes sampleProjectFile st Renumber = true /\
  selectedOrderIds (@run plainBuiltins sampleProjectFile st Renumber) = ∅.
Proof.
  cbv zeta. split; [reflexivity|].
  apply (@run_clears_selection plainBuiltins sampleProjectFile). reflexivity.
Defined.

(** ** The earlier copy of the form *)

Lemma insert_if_keeps (b : bool) (k x field : string) (m : gmap string string) :
  is_Some (m !! field) -> is_Some ((if b then <[k := x]> m else m) !! field).
Proof.
  intros Hf. destruct b; [|done].
  apply lookup_insert_is_Some'. by right.
Qed.

Lemma currentErrors_keeps `{Builtins} (fs : FormState) (field : string) :
  is_Some (errors fs !! field) -> is_Some (Earlier.currentErrors fs !! field).
Proof.
  intros Hf. unfold Earlier.currentErrors. cbv zeta.
  by do 3 apply insert_if_keeps.
Qed.

(** In the earlier copy a negative entry in a number input blocks the
    submit that follows it. *)
Lemma earlier_negative_blocks `{Builtins} (cfg : gmap string string) (fs : FormState)
    (target : InputTarget) (v : Z) :
  target_type target = "number"%string ->
  parseFloat (target_value target) = Some v -> v < 0 ->
  snd (Earlier.handleSubmit cfg (Earlier.handleChange fs target)) =
  Blocked "Please fix the errors before saving.".
Proof.
  intros Hty Hv Hneg. unfold Earlier.handleSubmit.
  assert (Hsome : is_Some (Earlier.currentErrors (Earlier.handleChange fs target)
                             !! target_name target)).
  { apply currentErrors_keeps. unfold Earlier.handleChange. cbv zeta.
    rewrite Hty, Hv. simpl. rewrite (proj2 (Z.ltb_lt v 0) Hneg), orb_true_r.
    rewrite lookup_insert_eq. by eexists. }
  destruct (bool_decide_reflect
              (size (Earlier.currentErrors (Earlier.handleChange fs target)) = 0%nat))
    as [Hz|Hnz]; [|done].
  apply map_size_empty_iff in Hz. rewrite Hz, lookup_empty in Hsome.
  by destruct Hsome.
Qed.

(** * Further properties of the handlers *)

#[local] Set Warnings "-clear-no-such-hyp".

(** ** Status derivation, once more *)

(** X1.  Saving the saved order again derives the same status; and the
    derivation gives [In Progress] or [Completed] only when the form carried
    that status in. *)
Theorem newStatus_resave (o : ChangeOrder) :
  newStatus (orderToSave o) = newStatus o /\
  (sticky (newStatus o) -> newStatus o = co_status o).
Proof.
  unfold orderToSave, newStatus, sticky. cbv zeta. simpl.
  destruct (isRejected (approvals o)); [split; [done|intros [|]; done]|].
  destruct (isFullyApproved (approvals o));
    destruct (co_status o); simpl; (split; [done|intros [|]; done]).
Qed.

(** ** Delete *)

Lemma filter_all {A : Type} (p : A -> bool) (l : list A) :
  (forall x, In x l -> p x = true) -> List.filter p l = l.
Proof.
  induction l as [|x l IH]; intros Hp; [done|].
  simpl. rewrite Hp by (by left). f_equal. apply IH. intros y Hy. apply Hp. by right.
Qed.

(** X2.  A confirmed delete keeps exactly the entries whose id is not
    selected, in the order they had; when no entry has a selected id the
    collection is the same; and confirming once more changes nothing. *)
Theorem executeDelete_spec (st : AppState) :
  (forall co, In co (changeOrders (executeDelete st)) <->
              In co (changeOrders st) /\ id co ∉ selectedOrderIds st) /\
  sublist (changeOrders (executeDelete st)) (changeOrders st) /\
  ((forall co, In co (changeOrders st) -> id co ∉ selectedOrderIds st) ->
   changeOrders (executeDelete st) = changeOrders st) /\
  executeDelete (executeDelete st) = executeDelete st.
Proof.
  split; [|split; [|split]].
  - intros co. simpl. rewrite filter_In, negb_true_iff, bool_decide_eq_false. done.
  - simpl. generalize (changeOrders st). intros l.
    induction l as [|x l IH]; simpl; [constructor|].
    destruct (negb _); by constructor.
  - intros Hnone. simpl. apply filter_all. intros co Hco.
    apply negb_true_iff, bool_decide_eq_false. by apply Hnone.
  - unfold executeDelete. simpl. f_equal.
    apply filter_all. intros co _. apply negb_true_iff, bool_decide_eq_false.
    set_solver.
Qed.

(** ** Ids *)

Lemma renumber_ids `{Builtins} (cos : list ChangeOrder) :
  map id (renumberedOrders cos) = map Z.of_nat (seq 1 (length cos)).
Proof.
  unfold renumberedOrders, mapi. rewrite renum_ids.
  unfold sortedOrders. rewrite js_sort_length. apply map_ext. intros n. lia.
Qed.

Lemma renumber_sans_id `{Builtins} (cos : list ChangeOrder) :
  Permutation (map sans_id (renumberedOrders cos)) (map sans_id cos).
Proof.
  unfold renumberedOrders, mapi. rewrite renum_sans_id.
  apply Permutation_map, js_sort_perm.
Qed.

Lemma ids_1_to_n_ok (cos : list ChangeOrder) (n : nat) :
  map id cos = map Z.of_nat (seq 1 n) -> idsOk cos.
Proof.
  intros Hids. split.
  - rewrite Hids. apply NoDup_fmap_2; [apply _|]. apply NoDup_ListNoDup, seq_NoDup.
  - apply List.Forall_forall. intros co Hco.
    apply (in_map id) in Hco. rewrite Hids in Hco.
    apply in_map_iff in Hco as (k & <- & Hk). apply in_seq in Hk. lia.
Qed.

(** X3.  A renumbering of a collection that is not empty, whatever its ids
    and dates were (ids shared by entries, id 0, dates that do not parse),
    keeps every entry up to its id and leaves the ids 1, 2, ..., N: all
    positive, no two equal. *)
Theorem handleRenumber_ids `{Builtins} (st : AppState) :
  changeOrders st <> [] ->
  Permutation (map sans_id (changeOrders (handleRenumber st)))
              (map sans_id (changeOrders st)) /\
  map id (changeOrders (handleRenumber st)) =
    map Z.of_nat (seq 1 (length (changeOrders st))) /\
  idsOk (changeOrders (handleRenumber st)).
Proof.
  intros Hne. unfold handleRenumber.
  rewrite bool_decide_eq_false_2 by (by destruct (changeOrders st)).
  simpl. split; [apply renumber_sans_id|].
  split; [apply renumber_ids|].
  eapply ids_1_to_n_ok, renumber_ids.
Qed.

Lemma idsOk_perm (l l' : list ChangeOrder) :
  Permutation l l' -> idsOk l -> idsOk l'.
Proof.
  intros Hp [Hnd Hpos]. split.
  - apply (Permutation_map id) in Hp. by rewrite <- Hp.
  - by rewrite <- Hp.
Qed.

Lemma savedOrders_update (cos : list ChangeOrder) (o : ChangeOrder) :
  id o <> 0 ->
  savedOrders cos o =
  map (fun co => if bool_decide (id co = id o) then orderToSave o else co) cos.
Proof. intros Hid. unfold savedOrders. cbv zeta. by rewrite bool_decide_eq_false_2. Qed.

Lemma savedOrders_create (cos : list ChangeOrder) (o : ChangeOrder) :
  id o = 0 ->
  Permutation (savedOrders cos o) (with_id (newCoId cos) (orderToSave o) :: cos).
Proof.
  intros Hid. unfold savedOrders. cbv zeta. rewrite bool_decide_eq_true_2 by done.
  rewrite js_sort_perm. symmetry. apply Permutation_cons_append.
Qed.

Lemma savedOrders_update_ids (cos : list ChangeOrder) (o : ChangeOrder) :
  id o <> 0 -> map id (savedOrders cos o) = map id cos.
Proof.
  intros Hid. rewrite savedOrders_update by done. rewrite map_map.
  apply map_ext. intros co. by case_bool_decide.
Qed.

Lemma idsOk_saved (cos : list ChangeOrder) (o : ChangeOrder) :
  idsOk cos -> idsOk (savedOrders cos o).
Proof.
  intros [Hnd Hpos]. destruct (decide (id o = 0)) as [Hid|Hid].
  - eapply idsOk_perm; [symmetry; by apply savedOrders_create|].
    destruct (Math_max0_spec (map id cos)) as (_ & Hge & Hmax).
    split.
    + simpl. apply NoDup_cons. split; [|done].
      intros Hin. apply list_elem_of_In in Hin.
      rewrite List.Forall_forall in Hmax. apply Hmax in Hin.
      unfold newCoId in Hin. lia.
    + constructor; [|done]. simpl. unfold newCoId. lia.
  - split.
    + by rewrite savedOrders_update_ids.
    + apply List.Forall_forall. intros co Hco.
      assert (Hin : In (id co) (map id (savedOrders cos o))) by by apply in_map.
      rewrite savedOrders_update_ids in Hin by done.
      apply in_map_iff in Hin as (co' & <- & Hco').
      rewrite List.Forall_forall in Hpos. by apply Hpos.
Qed.

Lemma idsOk_filter (p : ChangeOrder -> bool) (cos : list ChangeOrder) :
  idsOk cos -> idsOk (List.filter p cos).
Proof.
  intros [Hnd Hpos]. split.
  - induction cos as [|co cos IH]; [done|].
    simpl in Hnd. apply NoDup_cons in Hnd as [Hnotin Hnd].
    apply Forall_cons in Hpos as [_ Hpos].
    simpl. destruct (p co); [|by apply IH].
    simpl. apply NoDup_cons. split; [|by apply IH].
    intros Hin. apply Hnotin. apply list_elem_of_In in Hin. apply list_elem_of_In.
    apply in_map_iff in Hin as (x & Hx & Hin). apply filter_In in Hin as [Hin _].
    apply in_map_iff. by exists x.
  - apply List.Forall_forall. intros co Hco. apply filter_In in Hco as [Hco _].
    rewrite List.Forall_forall in Hpos. by apply Hpos.
Qed.

(** X4.  When the ids of the collection are positive and no two entries
    share one, they still are after a save (of any order, new or existing),
    after a confirmed delete and after a renumbering.  An import is the one
    command that can break this: it stores the entries of the file
    unchecked. *)
Theorem idsOk_preserved `{Builtins} `{ProjectFile} (st : AppState) (c : Command) :
  idsOk (changeOrders st) ->
  (forall ev, c <> Import ev) ->
  idsOk (changeOrders (run st c)).
Proof.
  intros Hok Hc. destruct c as [o| | |ev]; simpl.
  - by apply idsOk_saved.
  - by apply idsOk_filter.
  - unfold handleRenumber. case_bool_decide; [done|].
    simpl. eapply ids_1_to_n_ok, renumber_ids.
  - by destruct (Hc ev).
Qed.

Lemma idsOk_preserved_witness :
  let st :=
    sampleState [sampleOrder 3 "2024-02-15" 50 2 CO_PendingApproval [];
                 sampleOrder 1 "2024-01-10" 100 0 CO_Approved []] ∅ in
  let c := Save (sampleOrder 0 "2024-03-01" 75 1 CO_PendingApproval []) in
  idsOk (changeOrders st) /\
  idsOk (changeOrders (@run plainBuiltins sampleProjectFile st c)).
Proof.
  cbv zeta.
  assert (Hok : idsOk (changeOrders
            (sampleState [sampleOrder 3 "2024-02-15" 50 2 CO_PendingApproval [];
                          sampleOrder 1 "2024-01-10" 100 0 CO_Approved []] ∅))).
  { split; simpl.
    - by apply (bool_decide_unpack _).
    - repeat constructor. }
  split; [exact Hok|].
  apply (@idsOk_preserved plainBuiltins sampleProjectFile _ _ Hok).
  intros ev. discriminate.
Defined.

(** ** Selection *)

Lemma select_fold_add (l : list ChangeOrder) (prev : gset Z) :
  fold_left (fun newSelected co => {[id co]} ∪ newSelected) l prev =
  prev ∪ allFilteredIds l.
Proof.
  unfold allFilteredIds. revert prev.
  induction l as [|co l IH]; intros prev; simpl; [set_solver|].
  rewrite IH. set_solver.
Qed.

Lemma select_fold_remove (l : list ChangeOrder) (prev : gset Z) :
  fold_left (fun newSelected co => newSelected ∖ {[id co]}) l prev =
  prev ∖ allFilteredIds l.
Proof.
  unfold allFilteredIds. revert prev.
  induction l as [|co l IH]; intros prev; simpl; [set_solver|].
  rewrite IH. set_solver.
Qed.

Lemma elem_of_allFilteredIds (i : Z) (l : list ChangeOrder) :
  i ∈ allFilteredIds l <-> exists co, In co l /\ id co = i.
Proof.
  unfold allFilteredIds. rewrite elem_of_list_to_set, list_elem_of_In, in_map_iff.
  split; intros (co & H1 & H2); exists co; done.
Qed.

Lemma isSelectAllChecked_true (selected : gset Z) (filtered : list ChangeOrder) :
  isSelectAllChecked selected filtered = true <->
  filtered <> [] /\ forall co, In co filtered -> id co ∈ selected.
Proof.
  unfold isSelectAllChecked. case_bool_decide as Hsize.
  - apply size_empty_iff in Hsize. split; [done|]. intros [Hne _].
    destruct filtered as [|co l]; [done|].
    assert (id co ∈ allFilteredIds (co :: l)) as Hin
      by (apply elem_of_allFilteredIds; exists co; split; [by left|done]).
    rewrite leibniz_equiv_iff in Hsize. rewrite Hsize in Hin. set_solver.
  - rewrite forallb_forall. split.
    + intros Hall. split.
      * intros ->. apply Hsize. done.
      * intros co Hco. eapply bool_decide_eq_true_1, Hall.
        apply list_elem_of_In, elem_of_elements, elem_of_allFilteredIds.
        by exists co.
    + intros [_ Hall] i Hi. apply bool_decide_eq_true.
      apply list_elem_of_In, elem_of_elements, elem_of_allFilteredIds in Hi.
      destruct Hi as (co & Hco & <-). by apply Hall.
Qed.

(** X5.  Ticking the header box adds the ids of the rows shown to the
    selection and unticking removes them; the ids of entries the filter
    hides stay as they were.  The box shows as ticked exactly when rows are
    shown and each has its id selected: so it does after ticking it on a
    view that is not empty, and it does not after unticking it. *)
Theorem handleSelectAll_spec (filtered : list ChangeOrder) (prev : gset Z) :
  handleSelectAll true filtered prev = prev ∪ allFilteredIds filtered /\
  handleSelectAll false filtered prev = prev ∖ allFilteredIds filtered /\
  (forall selected,
     isSelectAllChecked selected filtered = true <->
     filtered <> [] /\ forall co, In co filtered -> id co ∈ selected) /\
  (filtered <> [] ->
   isSelectAllChecked (handleSelectAll true filtered prev) filtered = true) /\
  isSelectAllChecked (handleSelectAll false filtered prev) filtered = false.
Proof.
  assert (Hadd := select_fold_add filtered prev).
  assert (Hrem := select_fold_remove filtered prev).
  unfold handleSelectAll.
  split; [exact Hadd|]. split; [exact Hrem|].
  split; [intros selected; apply isSelectAllChecked_true|]. split.
  - intros Hne. apply isSelectAllChecked_true. split; [done|].
    intros co Hco. rewrite Hadd. apply elem_of_union_r, elem_of_allFilteredIds.
    by exists co.
  - apply Bool.not_true_iff_false. rewrite isSelectAllChecked_true.
    intros [Hne Hall]. destruct filtered as [|co l]; [done|].
    specialize (Hall co (or_introl eq_refl)). rewrite Hrem in Hall.
    apply elem_of_difference in Hall as [_ Hnot]. apply Hnot.
    apply elem_of_allFilteredIds. exists co. split; [by left|done].
Qed.

(** X6.  With ids that no two entries share and nothing selected, ticking
    the header box under a filter and confirming the delete removes the
    entries the filter shows and keeps the others, in their order. *)
Theorem select_all_then_delete `{Builtins} (st : AppState) (filters : Filters) :
  NoDup (map id (changeOrders st)) ->
  selectedOrderIds st = ∅ ->
  changeOrders
    (executeDelete
       (setSelectedOrderIds st
          (handleSelectAll true (filteredChangeOrders (changeOrders st) filters)
             (selectedOrderIds st)))) =
  List.filter (fun co => negb (filterMatch filters co)) (changeOrders st).
Proof.
  intros Hnd ->. revert Hnd.
  intros Hnd. simpl. apply filter_ext_in. intros co Hco. f_equal.
  unfold handleSelectAll. rewrite select_fold_add.
  destruct (filterMatch filters co) eqn:Hm.
  - apply bool_decide_eq_true. apply elem_of_union_r, elem_of_allFilteredIds.
    exists co. split; [|done]. apply filter_In. done.
  - apply bool_decide_eq_false. intros Hin.
    apply elem_of_union in Hin as [Hin|Hin]; [set_solver|].
    apply elem_of_allFilteredIds in Hin as (co' & Hco' & Hid).
    apply filter_In in Hco' as [Hco' Hm'].
    assert (co' = co); [|congruence].
    clear Hm Hm'. revert Hnd Hco Hco' Hid. generalize (changeOrders st).
    intros l. induction l as [|x l IH]; [done|].
    simpl. rewrite NoDup_cons. intros [Hx Hnd] [->|Hco] [->|Hco'] Hid; auto.
    + exfalso. apply Hx. rewrite <- Hid. apply list_elem_of_In, in_map, Hco'.
    + exfalso. apply Hx. rewrite Hid. apply list_elem_of_In, in_map, Hco.
Qed.

Lemma select_all_then_delete_witness :
  let st :=
    sampleState [sampleOrder 3 "2024-02-15" 50 2 CO_PendingApproval [];
                 sampleOrder 2 "2024-02-01" 70 0 CO_Approved [];
                 sampleOrder 1 "2024-01-10" 100 0 CO_Approved []] ∅ in
  let filters := mkFilters "" "" "Approved" "" "" "" "" "" in
  NoDup (map id (changeOrders st)) /\
  map id
    (changeOrders
       (executeDelete
          (setSelectedOrderIds st
             (handleSelectAll true
                (@filteredChangeOrders plainBuiltins (changeOrders st) filters)
                (selectedOrderIds st))))) = [3].
Proof.
  cbv zeta.
  assert (Hnd : NoDup (map id (changeOrders
            (sampleState [sampleOrder 3 "2024-02-15" 50 2 CO_PendingApproval [];
                          sampleOrder 2 "2024-02-01" 70 0 CO_Approved [];
                          sampleOrder 1 "2024-01-10" 100 0 CO_Approved []] ∅))))
    by (by apply (bool_decide_unpack _)).
  split; [exact Hnd|].
  rewrite (@select_all_then_delete plainBuiltins _
             (mkFilters "" "" "Approved" "" "" "" "" "") Hnd eq_refl).
  reflexivity.
Defined.

(** ** Edit *)


Lemma setNumber_id (field : string) (v : Z) (co : ChangeOrder) :
  id (setNumber field v co) = id co.
Proof. unfold setNumber. by repeat case_bool_decide. Qed.

Lemma setText_id (field v : string) (co : ChangeOrder) :
  id (setText field v co) = id co.
Proof.
  unfold setText. repeat case_bool_decide; try done.
  by destruct (statusOfText v).
Qed.

Lemma formStep_id `{Builtins} (fs : FormState) (ev : FormEvent) :
  id (formData (formStep fs ev)) = id (formData fs).
Proof.
  destruct ev; simpl; try done.
  case_bool_decide; [apply setNumber_id|apply setText_id].
Qed.

Lemma formSteps_id `{Builtins} (events : list FormEvent) (fs : FormState) :
  id (formData (fold_left formStep events fs)) = id (formData fs).
Proof.
  revert fs. induction events as [|ev events IH]; intros fs; simpl; [done|].
  by rewrite IH, formStep_id.
Qed.



(** ** Approver rows *)

Lemma editControl_ok (e : ControlEdit) (c : InternalApproverControl) :
  controlOk c -> controlOk (editControl e c).
Proof.
  unfold controlOk. destruct e as [b|s|d]; simpl.
  - destruct b; simpl; auto.
  - case_bool_decide; simpl; [done|]. intros _ Hs. congruence.
  - destruct (truthy d) eqn:Hd; simpl.
    + case_bool_decide as Hp; simpl; [done|]. intros _ Hs. congruence.
    + intros _ _. unfold truthy in Hd. apply negb_false_iff in Hd.
      by apply bool_decide_eq_true in Hd.
Qed.

Lemma editThirdParty_ok (e : ThirdPartyEdit) (a : Approval) :
  thirdPartyOk a -> thirdPartyOk (editThirdParty e a).
Proof.
  unfold thirdPartyOk. destruct e as [n|s|d]; simpl.
  - done.
  - case_bool_decide; simpl; [by left|]. intros _ Hs. congruence.
  - destruct (truthy d) eqn:Hd; simpl.
    + case_bool_decide as Hp; simpl; [done|]. intros _ Hs. congruence.
    + intros _ _. unfold truthy in Hd. apply negb_false_iff in Hd.
      apply bool_decide_eq_true in Hd. left. by rewrite Hd.
Qed.

Lemma Forall_alter_keep {A : Type} (P : A -> Prop) (f : A -> A) (i : nat) (l : list A) :
  (forall x, P x -> P (f x)) -> Forall P l -> Forall P (alter f i l).
Proof. intros Hf Hl. apply Forall_alter; [done|]. intros x _. apply Hf. Qed.

Lemma formStep_rows_ok `{Builtins} (fs : FormState) (ev : FormEvent) :
  Forall controlOk (internalApprovers fs) /\ Forall thirdPartyOk (thirdPartyApprovers fs) ->
  Forall controlOk (internalApprovers (formStep fs ev)) /\
  Forall thirdPartyOk (thirdPartyApprovers (formStep fs ev)).
Proof.
  intros [Hi Ht]. destruct ev as [t|i e|i e| |i]; simpl; split; try done.
  - apply Forall_alter_keep; [apply editControl_ok|done].
  - apply Forall_alter_keep; [apply editThirdParty_ok|done].
  - apply Forall_app. split; [done|]. constructor; [|constructor]. intros _. by left.
  - by apply Forall_delete.
Qed.

Lemma loadForm_rows_ok `{Builtins} (today : string) (order : option ChangeOrder)
    (cfg : gmap string string) :
  (forall o, order = Some o -> Forall approvalOk (approvals o)) ->
  Forall controlOk (internalApprovers (loadForm today order cfg)) /\
  Forall thirdPartyOk (thirdPartyApprovers (loadForm today order cfg)).
Proof.
  intros Hok.
  assert (Hex : Forall approvalOk
                  match order with Some o => approvals o | None => [] end).
  { destruct order as [o|]; [by apply Hok|constructor]. }
  unfold loadForm. cbv zeta. simpl. rewrite List.Forall_forall in Hex. split.
  - apply List.Forall_forall. intros c Hc.
    apply in_map_iff in Hc as (r & <- & _).
    destruct (List.find _ _) as [a|] eqn:Hf; [|done].
    apply find_some in Hf as [Ha _]. specialize (Hex a Ha).
    unfold controlOk, approvalOk in *. simpl. intros Hs. by rewrite Hex.
  - apply List.Forall_forall. intros a Ha.
    apply in_map_iff in Ha as (a0 & <- & Ha0). apply filter_In in Ha0 as [Ha0 _].
    specialize (Hex a0 Ha0). unfold thirdPartyOk, approvalOk in *. simpl.
    intros Hs. left. by rewrite Hex.
Qed.

Lemma finalApprovals_ok (cfg : gmap string string) (fs : FormState) :
  Forall controlOk (internalApprovers fs) ->
  Forall thirdPartyOk (thirdPartyApprovers fs) ->
  Forall approvalOk (finalApprovals cfg fs).
Proof.
  intros Hi Ht. rewrite finalApprovals_eq. rewrite List.Forall_forall in Hi, Ht.
  apply Forall_app. split; apply List.Forall_forall; intros a Ha;
    apply in_map_iff in Ha as (x & <- & Hx); apply filter_In in Hx as [Hx _].
  - specialize (Hi x Hx). unfold approvalOk, controlOk in *. simpl.
    intros Hs. by rewrite Hi.
  - specialize (Ht x Hx). unfold approvalOk, thirdPartyOk in *. simpl.
    intros Hs. by destruct (Ht Hs) as [-> | ->].
Qed.

(** X9.  When no stored approval of the order is pending with a date, none
    of the approvals the form submits is, whatever is done to the rows in
    between: a date set on a pending row approves it, a status set back to
    pending clears the date, a row taken out is reset. *)
Theorem form_keeps_pending_undated `{Builtins} (today : string)
    (order : option ChangeOrder) (cfg : gmap string string) (events : list FormEvent) :
  (forall o, order = Some o -> Forall approvalOk (approvals o)) ->
  Forall approvalOk
    (finalApprovals cfg (fold_left formStep events (loadForm today order cfg))).
Proof.
  intros Hok. apply loadForm_rows_ok with (today := today) (cfg := cfg) in Hok.
  revert Hok. generalize (loadForm today order cfg). intros fs Hfs.
  revert fs Hfs. induction events as [|ev events IH]; intros fs Hfs; simpl.
  - destruct Hfs. by apply finalApprovals_ok.
  - apply IH. by apply formStep_rows_ok.
Qed.

Lemma form_keeps_pending_undated_witness :
  let order :=
    Some (sampleOrder 1 "2024-01-10" 100 0 CO_PendingApproval
            [mkApproval "Inspector" AS_Pending None;
             mkApproval "Ann" AS_Approved (Some "2024-01-12"%string)]) in
  let cfg : gmap string string := {[ "Manager of Gas Engineering"%string := "Ann"%string ]} in
  let events :=
    [EvThirdParty 0 (TP_SetApprovalDate "2024-01-20"); EvInternal 0 (SetStatus AS_Pending)] in
  (forall o, order = Some o -> Forall approvalOk (approvals o)) /\
  Forall approvalOk
    (finalApprovals cfg
       (fold_left (@formStep plainBuiltins) events
          (@loadForm plainBuiltins "2024-03-01" order cfg))).
Proof.
  cbv zeta.
  assert (Hok : forall o,
            Some (sampleOrder 1 "2024-01-10" 100 0 CO_PendingApproval
                    [mkApproval "Inspector" AS_Pending None;
                     mkApproval "Ann" AS_Approved (Some "2024-01-12"%string)]) = Some o ->
            Forall approvalOk (approvals o)).
  { intros o [= <-]. simpl. repeat constructor. intros [=]. }
  split; [exact Hok|].
  exact (@form_keeps_pending_undated plainBuiltins "2024-03-01" _ _ _ Hok).
Defined.

(** X10.  A third-party row added and left without a name changes nothing
    in what the form submits, and removing the row just added gives the form
    back as it was. *)
Theorem unnamed_row_not_saved (cfg : gmap string string) (fs : FormState) :
  finalApprovals cfg (addThirdPartyApprover fs) = finalApprovals cfg fs /\
  removeThirdPartyApprover (addThirdPartyApprover fs) (length (thirdPartyApprovers fs)) = fs.
Proof.
  split.
  - rewrite !finalApprovals_eq. simpl. f_equal.
    rewrite List.filter_app. simpl. by rewrite app_nil_r.
  - destruct fs as [d i t e]. unfold removeThirdPartyApprover, addThirdPartyApprover.
    simpl. f_equal. induction t as [|a t IH]; simpl; [done|]. by rewrite IH.
Qed.

Lemma loadForm_internal_emitted `{Builtins} (today : string) (o : ChangeOrder)
    (cfg : gmap string string) :
  map (emitInternal cfg)
    (List.filter included (internalApprovers (loadForm today (Some o) cfg))) =
  omap (fun role =>
          normalized <$>
            List.find (fun app => bool_decide (name app = configuredName cfg role))
              (approvals o))
       (configuredInternalApprovers cfg).
Proof.
  unfold loadForm. cbv zeta. simpl.
  generalize (configuredInternalApprovers cfg). intros roles.
  induction roles as [|r roles IH]; [done|].
  cbn [map omap list_omap]. destruct (List.find _ _) as [a|] eqn:Hf; simpl.
  - rewrite IH. f_equal. apply find_some in Hf as [_ Hn].
    apply bool_decide_eq_true in Hn.
    unfold emitInternal, normalized. simpl. rewrite Hn.
    by destruct (approvalDate a).
  - exact IH.
Qed.

Lemma loadForm_third_party_emitted `{Builtins} (today : string) (o : ChangeOrder)
    (cfg : gmap string string) :
  map emitThirdParty
    (List.filter (fun app => truthy (name app))
       (thirdPartyApprovers (loadForm today (Some o) cfg))) =
  map normalized
    (List.filter
       (fun app =>
          negb (bool_decide (name app ∈ (map_to_list cfg).*2)) && truthy (name app))
       (approvals o)).
Proof.
  unfold loadForm. cbv zeta. simpl.
  generalize (approvals o). intros l.
  induction l as [|a l IH]; [done|].
  simpl. destruct (negb _); simpl; [|exact IH].
  destruct (truthy (name a)); simpl; [|exact IH].
  rewrite IH. f_equal. unfold emitThirdParty, normalized. simpl.
  by destruct (approvalDate a).
Qed.

(** X11.  An order opened in the form and submitted with its rows untouched
    gets these approvals: for each configured role, in the order of
    [APPROVER_ROLES], the first stored approval under the name configured
    for it, when there is one; then the stored approvals whose name is not
    empty and is no value of the configuration, in their order.  Each is the
    stored one with an empty date made [null]: no status changes and no
    approval is made up.  A stored approval that is neither (a second one
    under a configured name, one under the name of a role outside
    [APPROVER_ROLES] or of a blank-trimmed entry, one without a name) is
    left out. *)
Theorem load_then_submit_approvals `{Builtins} (today : string) (o : ChangeOrder)
    (cfg : gmap string string) :
  finalApprovals cfg (loadForm today (Some o) cfg) =
  omap (fun role =>
          normalized <$>
            List.find (fun app => bool_decide (name app = configuredName cfg role))
              (approvals o))
       (configuredInternalApprovers cfg) ++
  map normalized
    (List.filter
       (fun app =>
          negb (bool_decide (name app ∈ (map_to_list cfg).*2)) && truthy (name app))
       (approvals o)).
Proof.
  rewrite finalApprovals_eq.
  by rewrite loadForm_internal_emitted, loadForm_third_party_emitted.
Qed.

Lemma NoDup_map_inj {A B : Type} (f : A -> B) (l : list A) (x y : A) :
  NoDup (map f l) -> In x l -> In y l -> f x = f y -> x = y.
Proof.
  induction l as [|z l IH]; [done|].
  simpl. rewrite NoDup_cons. intros [Hz Hnd] [->|Hx] [->|Hy] Hf; auto.
  - exfalso. apply Hz. rewrite Hf. by apply list_elem_of_In, in_map.
  - exfalso. apply Hz. rewrite <- Hf. by apply list_elem_of_In, in_map.
Qed.

Lemma filter_split_perm {A : Type} (p : A -> bool) (l : list A) :
  Permutation (List.filter p l ++ List.filter (fun x => negb (p x)) l) l.
Proof.
  induction l as [|x l IH]; [done|].
  simpl. destruct (p x); simpl.
  - by constructor.
  - rewrite <- Permutation_middle. by constructor.
Qed.

Lemma configured_role_lookup `{Builtins} (cfg : gmap string string) (r : string) :
  In r (configuredInternalApprovers cfg) ->
  exists n, cfg !! r = Some n /\ configuredName cfg r = n.
Proof.
  unfold configuredInternalApprovers, configuredName. intros Hr.
  apply filter_In in Hr as [_ Hr].
  destruct (cfg !! r) as [n|]; [|done]. by exists n.
Qed.

Lemma APPROVER_ROLES_NoDup : NoDup APPROVER_ROLES.
Proof. by apply (bool_decide_unpack _). Qed.

Lemma configuredInternalApprovers_NoDup `{Builtins} (cfg : gmap string string) :
  NoDup (configuredInternalApprovers cfg).
Proof.
  unfold configuredInternalApprovers.
  generalize APPROVER_ROLES_NoDup. generalize APPROVER_ROLES. intros l Hl.
  induction Hl as [|x l Hx Hl IH]; simpl; [constructor|].
  destruct (match cfg !! x with Some n => truthy (trim n) | None => false end);
    [|exact IH].
  constructor; [|exact IH].
  intros Hin. apply Hx. apply list_elem_of_In in Hin. apply filter_In in Hin as [Hin _].
  by apply list_elem_of_In.
Qed.

Section RoundTrip.
Context `{Builtins}.
Variables (cfg : gmap string string) (apps : list Approval).

Let found (role : string) : option Approval :=
  normalized <$>
    List.find (fun app => bool_decide (name app = configuredName cfg role)) apps.

Let inValues (app : Approval) : bool :=
  bool_decide (name app ∈ (map_to_list cfg).*2).

Hypothesis names_distinct : NoDup (map name apps).
Hypothesis entries_usable :
  forall role n, cfg !! role = Some n -> In role (configuredInternalApprovers cfg).
Hypothesis names_of_roles_distinct :
  forall r1 r2 n, cfg !! r1 = Some n -> cfg !! r2 = Some n -> r1 = r2.

Lemma found_name (role : string) (x : Approval) :
  found role = Some x ->
  exists a, In a apps /\ x = normalized a /\ name a = configuredName cfg role.
Proof.
  unfold found. destruct (List.find _ _) as [a|] eqn:Hf; [|done].
  intros [= <-]. apply find_some in Hf as [Ha Hn].
  apply bool_decide_eq_true in Hn. by exists a.
Qed.

Lemma internal_part_members (x : Approval) :
  x ∈ omap found (configuredInternalApprovers cfg) <->
  x ∈ map normalized (List.filter inValues apps).
Proof.
  rewrite list_elem_of_omap, list_elem_of_In, in_map_iff. split.
  - intros (r & Hr & Hx). apply list_elem_of_In in Hr.
    apply found_name in Hx as (a & Ha & -> & Hn).
    apply configured_role_lookup in Hr as (n & Hcfg & Hcn).
    exists a. split; [done|]. apply filter_In. split; [done|].
    apply bool_decide_eq_true. apply list_elem_of_fmap.
    exists (r, n). split; [simpl; congruence|]. by apply elem_of_map_to_list.
  - intros (a & <- & Ha). apply filter_In in Ha as [Ha Hv].
    apply bool_decide_eq_true in Hv.
    apply list_elem_of_fmap in Hv as ([r n] & Hn & Hrn). simpl in Hn.
    apply elem_of_map_to_list in Hrn.
    exists r. split; [apply list_elem_of_In; by eapply entries_usable|].
    unfold found, configuredName. rewrite Hrn. simpl.
    destruct (List.find _ _) as [a'|] eqn:Hf.
    + apply find_some in Hf as [Ha' Hn']. apply bool_decide_eq_true in Hn'.
      simpl. do 2 f_equal.
      apply (NoDup_map_inj name apps); [done..|congruence].
    + eapply find_none in Hf; [|exact Ha].
      apply bool_decide_eq_false in Hf. congruence.
Qed.

Lemma internal_part_NoDup : NoDup (omap found (configuredInternalApprovers cfg)).
Proof.
  assert (Hroles : forall r, In r (configuredInternalApprovers cfg) ->
                     exists n, cfg !! r = Some n /\ configuredName cfg r = n)
    by (intros r; apply configured_role_lookup).
  revert Hroles. generalize (configuredInternalApprovers_NoDup cfg).
  generalize (configuredInternalApprovers cfg). intros roles Hnd.
  induction Hnd as [|r roles Hr Hnd IH]; intros Hroles; [constructor|].
  cbn [omap list_omap].
  assert (IH' : NoDup (omap found roles)).
  { apply IH. intros r' Hr'. apply Hroles. by right. }
  destruct (found r) as [x|] eqn:Hx; [|exact IH'].
  constructor; [|exact IH'].
  intros Hin. apply list_elem_of_omap in Hin as (r' & Hr' & Hx').
  apply found_name in Hx as (a & _ & -> & Hn).
  apply found_name in Hx' as (a' & _ & Heq & Hn').
  assert (Hnames : name a = name a') by exact (f_equal name Heq).
  destruct (Hroles r (or_introl eq_refl)) as (n & Hcfg & Hcn).
  destruct (Hroles r') as (n' & Hcfg' & Hcn'); [right; by apply list_elem_of_In|].
  assert (r = r') as ->.
  { apply (names_of_roles_distinct r r' n); [done|]. congruence. }
  done.
Qed.

Lemma round_trip_perm (today : string) (o : ChangeOrder) :
  approvals o = apps ->
  Forall (fun a => name a <> ""%string) apps ->
  Permutation (finalApprovals cfg (loadForm today (Some o) cfg)) (map normalized apps).
Proof.
  intros Ho Hnamed.
  rewrite finalApprovals_eq, loadForm_internal_emitted, loadForm_third_party_emitted, Ho.
  etransitivity; [|apply Permutation_map, (filter_split_perm inValues apps)].
  rewrite map_app. apply Permutation_app.
  - apply NoDup_Permutation.
    + apply internal_part_NoDup.
    + apply (NoDup_fmap_1 name). rewrite <- list_fmap_compose.
      change (NoDup (map name (List.filter inValues apps))).
      clear -names_distinct. induction apps as [|a l IH]; [constructor|].
      simpl in names_distinct. apply NoDup_cons in names_distinct as [Ha Hl].
      simpl. destruct (inValues a); [|by apply IH].
      simpl. constructor; [|by apply IH].
      intros Hin. apply Ha. apply list_elem_of_In in Hin. apply list_elem_of_In.
      apply in_map_iff in Hin as (x & Hx & Hin). apply filter_In in Hin as [Hin _].
      apply in_map_iff. by exists x.
    + apply internal_part_members.
  - apply Permutation_map. apply Permutation_refl'.
    apply filter_ext_in. intros a Ha. unfold inValues.
    rewrite List.Forall_forall in Hnamed. specialize (Hnamed a Ha).
    unfold truthy. rewrite (bool_decide_eq_false_2 (name a = ""%string)) by done.
    apply andb_true_r.
Qed.
End RoundTrip.

(** X12.  When the stored approvals have names that are not empty and all
    different, and every entry of the approver configuration belongs to a
    role of [APPROVER_ROLES] with a name that is not blank, no two roles
    under one name, then opening the order and submitting it with the rows
    untouched loses nothing: the approvals submitted are the stored ones
    (an empty date made [null]), internal ones first. *)
Theorem edit_round_trip_keeps_approvals `{Builtins} (today : string) (o : ChangeOrder)
    (cfg : gmap string string) :
  NoDup (map name (approvals o)) ->
  Forall (fun a => name a <> ""%string) (approvals o) ->
  (forall role n, cfg !! role = Some n -> In role (configuredInternalApprovers cfg)) ->
  (forall r1 r2 n, cfg !! r1 = Some n -> cfg !! r2 = Some n -> r1 = r2) ->
  Permutation (finalApprovals cfg (loadForm today (Some o) cfg))
              (map normalized (approvals o)).
Proof.
  intros Hnd Hnamed Husable Hdistinct.
  by apply (round_trip_perm cfg (approvals o)).
Qed.

Lemma edit_round_trip_keeps_approvals_witness :
  let o :=
    sampleOrder 1 "2024-01-10" 100 0 CO_PendingApproval
      [mkApproval "Inspector" AS_Pending None;
       mkApproval "Ann" AS_Approved (Some "2024-01-12"%string)] in
  let cfg : gmap string string := {[ "Manager of Gas Engineering"%string := "Ann"%string ]} in
  Permutation (finalApprovals cfg (@loadForm plainBuiltins "2024-03-01" (Some o) cfg))
              (map normalized (approvals o)).
Proof.
  cbv zeta.
  apply (@edit_round_trip_keeps_approvals plainBuiltins).
  - by apply (bool_decide_unpack _).
  - simpl. repeat constructor; discriminate.
  - intros role n Hl. apply lookup_singleton_Some in Hl as [<- <-].
    vm_compute. auto.
  - intros r1 r2 n H1 H2.
    apply lookup_singleton_Some in H1 as [<- _].
    apply lookup_singleton_Some in H2 as [<- _]. reflexivity.
Defined.

(** ** The report summary *)

Lemma getTotalCost_sum (orders : list ChangeOrder) :
  getTotalCost orders = sumZ (map totalCost orders).
Proof. unfold getTotalCost. rewrite reduceCost_from. lia. Qed.

(** X13.  In the summary of the report every order counts in exactly one of
    the three groups (approved with in progress and completed, pending,
    rejected), so the three cost lines add up to the line for all orders;
    on an empty collection all four are 0. *)
Theorem report_cost_lines_add_up (cos : list ChangeOrder) :
  (length (approvedOrders cos) + length (pendingOrders cos) +
   length (rejectedOrders cos) = length cos)%nat /\
  totalCostAll cos =
    getTotalCost (approvedOrders cos) + getTotalCost (pendingOrders cos) +
    getTotalCost (rejectedOrders cos).
Proof.
  assert (Hall : totalCostAll cos = getTotalCost cos).
  { unfold totalCostAll. by destruct cos. }
  rewrite Hall, !getTotalCost_sum. clear Hall.
  unfold approvedOrders, pendingOrders, rejectedOrders.
  induction cos as [|co cos [IHn IHc]]; [done|].
  cbn [List.filter]. destruct (co_status co) eqn:Hs; simpl;
    simpl in IHn, IHc; split; lia.
Qed.

(** ** Filter, once more *)

(** X14.  With a date criterion set, every entry shown has a date that
    parses and is not before the criterion; an entry whose date does not
    parse is hidden, and a criterion that does not parse hides every
    entry. *)
Theorem filter_date_criterion `{Builtins} (cos : list ChangeOrder) (filters : Filters) :
  truthy (filter_dateRequested filters) = true ->
  (forall co, In co (filteredChangeOrders cos filters) ->
     exists t t0,
       getTime (dateRequested co) = Some t /\
       getTime (filter_dateRequested filters) = Some t0 /\ t0 <= t) /\
  (getTime (filter_dateRequested filters) = None ->
   filteredChangeOrders cos filters = []).
Proof.
  intros Hset.
  assert (Hshown : forall co, filterMatch filters co = true ->
            exists t t0,
              getTime (dateRequested co) = Some t /\
              getTime (filter_dateRequested filters) = Some t0 /\ t0 <= t).
  { intros co. unfold filterMatch, dateGe. cbv zeta. rewrite Hset.
    rewrite !andb_true_iff. intros [[[[[[[_ _] _] Hd] _] _] _] _].
    destruct (getTime (dateRequested co)) as [t|]; [|done].
    destruct (getTime (filter_dateRequested filters)) as [t0|]; [|done].
    exists t, t0. apply Z.leb_le in Hd. done. }
  split.
  - intros co Hco. apply filter_In in Hco as [_ Hm]. by apply Hshown.
  - intros Hnone. unfold filteredChangeOrders.
    induction cos as [|co cos IH]; [done|].
    simpl. destruct (filterMatch filters co) eqn:Hm; [|exact IH].
    apply Hshown in Hm as (t & t0 & _ & Ht0 & _). congruence.
Qed.

Lemma filter_date_criterion_witness :
  let cos :=
    [sampleOrder 1 "2024-01-10" 500 0 CO_Approved [];
     sampleOrder 2 "" 1200 0 CO_Approved [];
     sampleOrder 3 "2024-02-15" 5000 0 CO_Approved []] in
  let filters := mkFilters "" "" "All" "2024-02-01" "" "" "" "" in
  truthy (filter_dateRequested filters) = true /\
  forall co, In co (@filteredChangeOrders plainBuiltins cos filters) ->
    exists t t0,
      @getTime plainBuiltins (dateRequested co) = Some t /\
      @getTime plainBuiltins (filter_dateRequested filters) = Some t0 /\ t0 <= t.
Proof.
  cbv zeta. split; [reflexivity|].
  apply (@filter_date_criterion plainBuiltins). reflexivity.
Defined.

Lemma statusText_inj (s s' : ChangeOrderStatus) : statusText s = statusText s' -> s = s'.
Proof. by destruct s, s'. Qed.

(** X15.  The five texts of the status lists are read back as the status
    they stand for: picking one in the form sets that status, and picking
    one in the filter bar, the other criteria left empty, shows exactly the
    entries in that status. *)
Theorem status_select_round_trip `{Builtins} (s : ChangeOrderStatus)
    (co : ChangeOrder) (cos : list ChangeOrder) :
  setText "status" (statusText s) co = with_status s co /\
  filteredChangeOrders cos (mkFilters "" "" (statusText s) "" "" "" "" "") =
  List.filter (fun co => bool_decide (co_status co = s)) cos.
Proof.
  split; [by destruct s|].
  unfold filteredChangeOrders. apply filter_ext. intros c.
  unfold filterMatch. cbv zeta. simpl.
  rewrite parseFloat_empty, parseInt10_empty. simpl.
  rewrite (bool_decide_eq_false_2 (statusText s = "All"%string)) by (by destruct s).
  simpl. rewrite !andb_true_r.
  destruct (bool_decide_reflect (co_status c = s)) as [->|Hne].
  - by apply bool_decide_eq_true.
  - apply bool_decide_eq_false. intros Heq. by apply Hne, statusText_inj.
Qed.

(** ** The earlier copy of the form, once more *)

Lemma earlier_change_keeps_title_error `{Builtins} (fs : FormState) (t : InputTarget) :
  (target_type t = "number"%string -> target_name t <> "title"%string) ->
  is_Some (errors fs !! "title"%string) ->
  is_Some (errors (Earlier.handleChange fs t) !! "title"%string).
Proof.
  intros Ht He. unfold Earlier.handleChange. cbv zeta. simpl.
  case_bool_decide as Hnum; [|done].
  destruct (_ || _).
  - apply lookup_insert_is_Some'. by right.
  - rewrite lookup_delete_ne; [done|]. by apply Ht.
Qed.

(** X16.  In the earlier copy of the form an error for a blank title is
    never taken back: once a submit was blocked for it, every later submit
    is blocked too, whatever is typed into the fields in between (also the
    title itself). *)
Theorem earlier_blocked_stays_blocked `{Builtins} (cfg : gmap string string)
    (fs : FormState) (targets : list InputTarget) :
  isBlank (title (formData fs)) = true ->
  Forall (fun t => target_type t = "number"%string -> target_name t <> "title"%string)
    targets ->
  snd (Earlier.handleSubmit cfg fs) = Blocked "Please fix the errors before saving." /\
  snd (Earlier.handleSubmit cfg
         (fold_left Earlier.handleChange targets (fst (Earlier.handleSubmit cfg fs)))) =
  Blocked "Please fix the errors before saving.".
Proof.
  intros Hblank Htargets.
  assert (Hblocked : forall fs0, is_Some (Earlier.currentErrors fs0 !! "title"%string) ->
            Earlier.handleSubmit cfg fs0 =
            (mkFormState (formData fs0) (internalApprovers fs0)
               (thirdPartyApprovers fs0) (Earlier.currentErrors fs0),
             Blocked "Please fix the errors before saving.")).
  { intros fs0 Hsome. unfold Earlier.handleSubmit.
    destruct (bool_decide_reflect (size (Earlier.currentErrors fs0) = 0%nat))
      as [Hz|Hnz]; [|done].
    apply map_size_empty_iff in Hz. rewrite Hz, lookup_empty in Hsome.
    by destruct Hsome. }
  assert (Hfirst : is_Some (Earlier.currentErrors fs !! "title"%string)).
  { unfold Earlier.currentErrors. cbv zeta. rewrite Hblank.
    do 2 apply insert_if_keeps. rewrite lookup_insert_eq. by eexists. }
  rewrite (Hblocked fs Hfirst). simpl. split; [done|].
  set (fs1 := mkFormState _ _ _ _).
  assert (H1 : is_Some (errors fs1 !! "title"%string)) by exact Hfirst.
  clearbody fs1. revert fs1 H1.
  induction Htargets as [|t targets Ht Htargets IH]; intros fs1 H1; simpl.
  - rewrite Hblocked; [done|]. by apply currentErrors_keeps.
  - apply IH. by apply earlier_change_keeps_title_error.
Qed.

Lemma earlier_blocked_stays_blocked_witness :
  let fs :=
    mkFormState (mkChangeOrder 0 "" "Replace valve" "Leak" CO_PendingApproval
                   "2024-03-01" 5 0 0 "" 0 []) [] [] ∅ in
  let targets := [mkTarget "title" "Valve" "text"] in
  @requiredTextMissing plainBuiltins
    (formData (fold_left (@Earlier.handleChange plainBuiltins) targets
                 (fst (@Earlier.handleSubmit plainBuiltins ∅ fs)))) = false /\
  snd (@Earlier.handleSubmit plainBuiltins ∅
         (fold_left (@Earlier.handleChange plainBuiltins) targets
            (fst (@Earlier.handleSubmit plainBuiltins ∅ fs)))) =
  Blocked "Please fix the errors before saving.".
Proof.
  cbv zeta. split; [reflexivity|].
  apply (@earlier_blocked_stays_blocked plainBuiltins ∅
           (mkFormState (mkChangeOrder 0 "" "Replace valve" "Leak" CO_PendingApproval
                           "2024-03-01" 5 0 0 "" 0 []) [] [] ∅)
           [mkTarget "title" "Valve" "text"]).
  - reflexivity.
  - repeat constructor. simpl. discriminate.
Defined.

(** ** Settings and the rows of the form *)

(** X17.  After the name configured for a role is changed in the settings,
    a stored approval under a name that the configuration no longer holds
    is loaded as a third-party row, and the row of the role is loaded as
    not included and pending unless some stored approval carries the new
    name. *)
Theorem renamed_approver_row `{Builtins} (today : string) (o : ChangeOrder)
    (localSettings : AppSettings) (changed newName : string) (a : Approval) :
  let cfg := approverConfig (SettingsModal.handleApproverChange localSettings changed newName) in
  In a (approvals o) ->
  (forall r n, cfg !! r = Some n -> n <> name a) ->
  In (mkApproval (name a) (status a) (Some (orEmpty (approvalDate a))))
     (thirdPartyApprovers (loadForm today (Some o) cfg)) /\
  ((forall b, In b (approvals o) -> name b <> newName) ->
   forall c, In c (internalApprovers (loadForm today (Some o) cfg)) ->
     role c = changed -> included c = false /\ ctl_status c = AS_Pending).
Proof.
  intros cfg Ha Hgone. split.
  - unfold loadForm. cbv zeta. simpl. apply in_map_iff. exists a. split; [done|].
    apply filter_In. split; [done|].
    apply negb_true_iff, bool_decide_eq_false. intros Hin.
    apply list_elem_of_fmap in Hin as ([r n] & Hn & Hrn). simpl in Hn.
    apply elem_of_map_to_list in Hrn. by apply (Hgone r n).
  - intros Hnone c Hc Hrole. unfold loadForm in Hc. cbv zeta in Hc. simpl in Hc.
    apply in_map_iff in Hc as (r & <- & Hr).
    destruct (List.find _ _) as [b|] eqn:Hf; [|done].
    apply find_some in Hf as [Hb Hn]. apply bool_decide_eq_true in Hn.
    simpl in Hrole. subst r. exfalso. apply (Hnone b Hb).
    rewrite Hn. unfold configuredName, cfg. simpl. by rewrite lookup_insert_eq.
Qed.

Lemma renamed_approver_row_witness :
  let o :=
    sampleOrder 1 "2024-01-10" 100 0 CO_Approved
      [mkApproval "Ann" AS_Approved (Some "2024-01-12"%string)] in
  let localSettings :=
    mkAppSettings "Main St" "" "" {[ "Manager of Gas Engineering"%string := "Ann"%string ]} in
  let cfg :=
    approverConfig
      (SettingsModal.handleApproverChange localSettings "Manager of Gas Engineering" "Anne") in
  In (mkApproval "Ann" AS_Approved (Some "2024-01-12"%string))
     (thirdPartyApprovers (@loadForm plainBuiltins "2024-03-01" (Some o) cfg)).
Proof.
  cbv zeta.
  apply (proj1 (@renamed_approver_row plainBuiltins "2024-03-01"
                  (sampleOrder 1 "2024-01-10" 100 0 CO_Approved
                     [mkApproval "Ann" AS_Approved (Some "2024-01-12"%string)])
                  (mkAppSettings "Main St" "" ""
                     {[ "Manager of Gas Engineering"%string := "Ann"%string ]})
                  "Manager of Gas Engineering" "Anne"
                  (mkApproval "Ann" AS_Approved (Some "2024-01-12"%string))
                  (or_introl eq_refl)
                  ltac:(simpl; intros r n Hl;
                        rewrite insert_singleton_eq in Hl;
                        apply lookup_singleton_Some in Hl as [_ <-];
                        discriminate))).
Defined.

(** ** Errors shown after a submit *)

(** X18.  After a submit the error shown for title, description and reason
    is there exactly when the field is blank, whatever was shown before;
    the errors of the other fields are as they were. *)
Theorem submitErrors_spec `{Builtins} (fs : FormState) (field : string) :
  submitErrors fs !! field =
  if bool_decide (field = "title"%string) then
    if isBlank (title (formData fs)) then Some "Title is required."%string else None
  else if bool_decide (field = "description"%string) then
    if isBlank (description (formData fs))
    then Some "Description is required."%string else None
  else if bool_decide (field = "reason"%string) then
    if isBlank (reason (formData fs))
    then Some "Reason for change is required."%string else None
  else errors fs !! field.
Proof.
  unfold submitErrors. cbv zeta.
  destruct (isBlank (title (formData fs))), (isBlank (description (formData fs))),
    (isBlank (reason (formData fs)));
    repeat case_bool_decide; subst;
    repeat first
      [ rewrite lookup_insert_eq
      | rewrite lookup_insert_ne by done
      | rewrite lookup_delete_eq
      | rewrite lookup_delete_ne by done ];
    done.
Qed.

(** ** Create, once more *)

Lemma sort_insert_front (x y : ChangeOrder) (l : list ChangeOrder) :
  id y <= id x ->
  sort_insert (fun a b => id b - id a) x (y :: l) = x :: y :: l.
Proof. intros Hle. simpl. destruct (Z.leb_spec (id y - id x) 0); [done|lia]. Qed.

Lemma sort_append_greatest (l : list ChangeOrder) (new : ChangeOrder) :
  StronglySorted (fun a b => id b <= id a) l ->
  Forall (fun co => id co < id new) l ->
  js_sort (fun a b => id b - id a) (l ++ [new]) = new :: l.
Proof.
  intros Hs Hlt. induction Hs as [|x l Hs IH Hx]; [done|].
  apply Forall_cons in Hlt as [Hxn Hlt].
  cbn [app js_sort]. rewrite IH by done.
  cbn [sort_insert]. destruct (Z.leb_spec (id new - id x) 0); [lia|].
  f_equal. destruct l as [|y l]; [done|].
  apply sort_insert_front. by apply Forall_inv in Hx.
Qed.

(** X19.  On a collection that is in descending order of id, a create puts
    the new entry on top and leaves the others as they are, in place. *)
Theorem handleSave_create_on_top (st : AppState) (o : ChangeOrder) :
  id o = 0 ->
  StronglySorted (fun a b => id b <= id a) (changeOrders st) ->
  changeOrders (handleSave st o) =
  with_id (newCoId (changeOrders st)) (orderToSave o) :: changeOrders st.
Proof.
  intros Hid Hsorted. simpl. unfold savedOrders. cbv zeta.
  rewrite bool_decide_eq_true_2 by done.
  apply sort_append_greatest; [done|].
  destruct (Math_max0_spec (map id (changeOrders st))) as (_ & _ & Hmax).
  apply List.Forall_forall. intros co Hco. simpl. unfold newCoId.
  rewrite List.Forall_forall in Hmax.
  specialize (Hmax (id co) (in_map id _ _ Hco)). lia.
Qed.

Lemma handleSave_create_on_top_witness :
  let st :=
    sampleState [sampleOrder 3 "2024-02-15" 50 2 CO_PendingApproval [];
                 sampleOrder 1 "2024-01-10" 100 0 CO_Approved []] ∅ in
  let o := sampleOrder 0 "2024-03-01" 75 1 CO_PendingApproval [] in
  changeOrders (handleSave st o) =
  with_id (newCoId (changeOrders st)) (orderToSave o) :: changeOrders st.
Proof.
  cbv zeta. apply handleSave_create_on_top; [reflexivity|].
  simpl. repeat constructor; simpl; lia.
Defined.

(** ** Settings at start-up *)

(** X20.  At start-up the stored settings replace the ones of the page only
    when the stored text is there, is not empty, parses, and the parsed
    value is truthy with an [approverConfig] of type [object] (an object, an
    array or [null]); in every other case the page is left exactly as it
    was. *)
Theorem loadSavedSettings_spec `{ProjectFile} (st : AppState) (saved : option string) :
  (forall text parsed,
     saved = Some text -> text <> ""%string -> JSON_parse text = Some parsed ->
     truthyJ (Some parsed) = true ->
     typeofObject (getProp parsed "approverConfig") = true ->
     settings (loadSavedSettings st saved) = asSettings parsed /\
     changeOrders (loadSavedSettings st saved) = changeOrders st) /\
  ((saved = None \/ saved = Some ""%string \/
    (exists text, saved = Some text /\ JSON_parse text = None) \/
    (exists text parsed, saved = Some text /\ JSON_parse text = Some parsed /\
       (truthyJ (Some parsed) = false \/
        typeofObject (getProp parsed "approverConfig") = false))) ->
   loadSavedSettings st saved = st).
Proof.
  split.
  - intros text parsed -> Hne Hp Ht Ho. unfold loadSavedSettings.
    unfold truthy. rewrite bool_decide_eq_false_2 by done. cbn [negb].
    by rewrite Hp, Ht, Ho.
  - intros [->|[->|[(text & -> & Hp)|(text & parsed & -> & Hp & Hbad)]]];
      unfold loadSavedSettings; try done.
    + destruct (truthy text); [|done]. by rewrite Hp.
    + destruct (truthy text); [|done]. rewrite Hp.
      destruct Hbad as [-> | ->]; [done|]. by rewrite andb_false_r.
Qed.

Lemma loadSavedSettings_spec_witness :
  let st := sampleState [] ∅ in
  @loadSavedSettings sampleProjectFile st (Some "[]"%string) = st.
Proof.
  cbv zeta.
  apply (proj2 (@loadSavedSettings_spec sampleProjectFile (sampleState [] ∅)
                  (Some "[]"%string))).
  right. right. right. exists "[]"%string, (JArr []).
  split; [reflexivity|]. split; [reflexivity|]. right. reflexivity.
Defined.

Lemma handleRenumber_ids_witness :
  let st :=
    sampleState [sampleOrder 0 "" 10 0 CO_Approved [];
                 sampleOrder 7 "2024-01-10" 20 0 CO_Approved [];
                 sampleOrder 7 "not a date" 30 0 CO_Approved []] ∅ in
  changeOrders st <> [] /\
  idsOk (changeOrders (@handleRenumber plainBuiltins st)).
Proof.
  cbv zeta.
  assert (Hne : changeOrders
            (sampleState [sampleOrder 0 "" 10 0 CO_Approved [];
                          sampleOrder 7 "2024-01-10" 20 0 CO_Approved [];
                          sampleOrder 7 "not a date" 30 0 CO_Approved []] ∅) <> [])
    by discriminate.
  split; [exact Hne|].
  exact (proj2 (proj2 (@handleRenumber_ids plainBuiltins _ Hne))).
Defined.

(** ** New order *)

(** X21.  A form opened with [handleCreateNew], filled in by any events and
    submitted with title, description and reason present adds one entry
    under the next id and keeps every entry there was: the form of a new
    order carries id 0 up to the submit. *)
Theorem create_new_then_save `{Builtins} (st : AppState) (today : string)
    (events : list FormEvent) :
  let st1 := handleCreateNew st in
  let fs :=
    fold_left formStep events
      (loadForm today (currentOrder st1) (approverConfig (settings st1))) in
  requiredTextMissing (formData fs) = false ->
  exists new,
    id new = newCoId (changeOrders st) /\
    sans_id new =
      sans_id (orderToSave
                 (with_approvals (finalApprovals (approverConfig (settings st)) fs)
                    (formData fs))) /\
    Permutation (changeOrders (fst (submitForm st1 fs))) (new :: changeOrders st).
Proof.
  intros st1 fs Hreq.
  assert (Hid : id (formData fs) = 0).
  { unfold fs. by rewrite formSteps_id. }
  exists (with_id (newCoId (changeOrders st))
            (orderToSave
               (with_approvals (finalApprovals (approverConfig (settings st)) fs)
                  (formData fs)))).
  split; [done|]. split; [done|].
  unfold submitForm, handleSubmit. cbv zeta.
  unfold requiredTextMissing in Hreq. rewrite Hreq. simpl.
  by apply savedOrders_create.
Qed.

Lemma create_new_then_save_witness :
  let st := sampleState [sampleOrder 3 "2024-02-15" 50 2 CO_PendingApproval []] {[3]} in
  let events :=
    [EvChange (mkTarget "title" "Valve" "text");
     EvChange (mkTarget "description" "Replace valve" "text");
     EvChange (mkTarget "reason" "Leak" "text");
     EvChange (mkTarget "costImpactEquipment" "120" "number")] in
  exists new,
    id new = 4 /\
    sans_id new =
      sans_id (mkChangeOrder 0 "Valve" "Replace valve" "Leak" CO_PendingApproval
                 "2024-03-01" 120 0 0 "" 0 []) /\
    Permutation
      (changeOrders
         (fst (@submitForm plainBuiltins (handleCreateNew st)
                 (fold_left (@formStep plainBuiltins) events
                    (@loadForm plainBuiltins "2024-03-01"
                       (currentOrder (handleCreateNew st))
                       (approverConfig (settings (handleCreateNew st)))))))) 
      (new :: changeOrders st).
Proof.
  cbv zeta.
  apply (@create_new_then_save plainBuiltins
           (sampleState [sampleOrder 3 "2024-02-15" 50 2 CO_PendingApproval []] {[3]})
           "2024-03-01"
           [EvChange (mkTarget "title" "Valve" "text");
            EvChange (mkTarget "description" "Replace valve" "text");
            EvChange (mkTarget "reason" "Leak" "text");
            EvChange (mkTarget "costImpactEquipment" "120" "number")]).
  vm_compute. reflexivity.
Defined.
